(** * audio_patch: the capture source and the VOX gate

    A shallow embedding of [audio_patch.py]: the sound-device source that
    reads mono 16-bit frames and duplicates every sample into a stereo
    frame, and the voice-operated switch [VoxSource] that wraps a source,
    switches itself off after a run of quiet frames and is switched on
    again by its polling task [on_vox]. *)

From Stdlib Require Import ZArith QArith Lia Lqa.
From Stdlib Require Import Strings.Byte.
From stdpp Require Import base list strings gmap pretty.

Local Open Scope Z_scope.

(** ** Raw bytes and 16-bit samples *)

(** A Python [bytes] object. *)
Abbreviation bytes := (list byte).

(** Iterating over [bytes] yields each byte as an integer in [0, 255]. *)
Definition byte_val (b : byte) : Z := Z.of_N (Byte.to_N b).

Definition byte_of_Z (z : Z) : byte :=
  default x00 (Byte.of_N (Z.to_N (z mod 256))).

(** The range of numpy's [int16]. *)
Definition is_int16 (s : Z) : Prop := -32768 <= s <= 32767.

(** Conversion of an integer to [int16], with wrap-around. *)
Definition wrap16 (z : Z) : Z := (z + 32768) mod 65536 - 32768.

(** The two bytes of an [int16] in memory: two's complement, low byte
    first. *)
Definition int16_tobytes (s : Z) : bytes :=
  [byte_of_Z s; byte_of_Z (s / 256)].

Definition int16_frombytes (lo hi : byte) : Z :=
  let u := byte_val lo + 256 * byte_val hi in
  if u <? 32768 then u else u - 65536.

(** The [int16] samples stored in a buffer, in order (what
    [np.frombuffer(buf, dtype='int16')] gives); a trailing odd byte holds
    no sample. *)
Fixpoint frombuffer (buf : bytes) : list Z :=
  match buf with
  | lo :: hi :: rest => int16_frombytes lo hi :: frombuffer rest
  | _ => []
  end.

(** ** Two-dimensional arrays *)

(** An [int16] array of shape (frames, channels) in C order: one row per
    frame, one column per channel. *)
Abbreviation ndarray := (list (list Z)).

(** [np.repeat(a, repeats, 1)]: along axis 1, every element of a row is
    repeated [repeats] times in place. *)
Definition np_repeat (a : ndarray) (repeats : nat) : ndarray :=
  map (flat_map (replicate repeats)) a.

(** [a.data.tobytes()]: the elements row by row. *)
Definition tobytes (a : ndarray) : bytes :=
  flat_map (flat_map int16_tobytes) a.

(** A frame of shape (n, 1) whose entries are 16-bit samples. *)
Definition mono_frame (a : ndarray) : Prop :=
  Forall (λ row, ∃ s, row = [s] ∧ is_int16 s) a.

(** ** The capture stream *)

Inductive device_id :=
  | DeviceIndex (i : Z)
  | DeviceName (name : string).

(** The started [sd.InputStream] of [SoundDeviceSource.__init__]: 48 kHz,
    one channel, [int16], low latency.  [signal] is what the device
    delivers, sample after sample; [position] counts the samples already
    handed out.  A blocking read waits for the samples it was asked for,
    so it is a function of the signal. *)
Record InputStream := {
  device : device_id;
  signal : N → Z;
  position : N
}.

(** [stream.read(frames)]: an array of shape (frames, 1) and the overflow
    flag.  The stream is taken to keep up with the device: nothing is
    discarded between two calls and the flag, which
    [SoundDeviceSource.read] ignores, stays false. *)
Definition stream_read (st : InputStream) (frames : nat)
  : ndarray * bool * InputStream :=
  (map (λ i, [wrap16 (signal st (position st + N.of_nat i)%N)]) (seq 0 frames),
   false,
   {| device := device st; signal := signal st;
      position := (position st + N.of_nat frames)%N |}).

(** ** SoundDeviceSource *)

Record SoundDeviceSource := { stream : InputStream }.

Definition SoundDeviceSource_init (dev : device_id) (sig : N → Z)
  : SoundDeviceSource :=
  {| stream := {| device := dev; signal := sig; position := 0 |} |}.

Definition SoundDeviceSource_is_opus (self : SoundDeviceSource) : bool := false.

Definition SoundDeviceSource_read (self : SoundDeviceSource)
  : bytes * SoundDeviceSource :=
  let '(data, _, st) := stream_read (stream self) 960 in
  let data := np_repeat data 2 in
  (tobytes data, {| stream := st |}).

(** ** Exceptions, results and the source interface *)

Inductive exn :=
  | ValueError (msg : string)
  | AttributeError (msg : string)
  | Exception (msg : string).

Inductive result (A : Type) :=
  | Ok (a : A)
  | Raise (e : exn).
Arguments Ok {A} a.
Arguments Raise {A} e.

(** What [VoxSource] uses of [discord.AudioSource]. *)
Class AudioSource (S : Type) := {
  is_opus : S → bool;
  read : S → result bytes * S
}.

#[export] Instance SoundDeviceSource_AudioSource : AudioSource SoundDeviceSource := {|
  is_opus := SoundDeviceSource_is_opus;
  read self := let '(data, self') := SoundDeviceSource_read self in (Ok data, self')
|}.

(** Another implementor of the interface, for examples: it hands out
    recorded buffers one by one and the empty buffer once they are used
    up. *)
Record BufferSource := { opus : bool; buffers : list bytes }.

#[export] Instance BufferSource_AudioSource : AudioSource BufferSource := {|
  is_opus := opus;
  read self :=
    match buffers self with
    | [] => (Ok [], self)
    | buf :: rest => (Ok buf, {| opus := opus self; buffers := rest |})
    end
|}.

(** [max(data)] on a [bytes] object: the largest byte value; Python raises
    on the empty sequence. *)
Definition py_max (data : bytes) : result Z :=
  match data with
  | [] => Raise (ValueError "max() arg is an empty sequence")
  | b :: rest => Ok (foldl Z.max (byte_val b) (byte_val <$> rest))
  end.

(** The peak absolute amplitude of a frame, in the words of the
    specification: the maximum of the absolute values of its 16-bit signed
    samples. *)
Definition peak_amplitude (data : bytes) : Z :=
  foldr Z.max 0 (Z.abs <$> frombuffer data).

(** ** The voice session and what the gate does to the outside *)

Record VoiceClient := { channel_name : string }.

Inductive task_state := Running | Cancelled.

(** The effects of the gate that leave the object: lines printed and
    calls of [voice.play(self)]. *)
Inductive event :=
  | Print (line : string)
  | Play (v : VoiceClient).

Definition is_play (e : event) : bool :=
  match e with Play _ => true | Print _ => false end.

(** How often playback was requested in a log. *)
Definition plays (log : list event) : nat := length (filter is_play log).

(** ** The clock of the polling task *)

(** The argument of [asyncio.sleep] at the end of a turn of [on_vox], from
    the two readings of [loop.time()] of that turn.  Times are in seconds,
    as exact rationals. *)
Definition sleep_delay (start_time now : Q) : Q := (now - start_time + 0.002)%Q.

(** [asyncio.sleep(delay)] resumes the task [delay] seconds later at the
    earliest, and at once when [delay] is not positive. *)
Definition wake_time (now delay : Q) : Q :=
  (if Qle_bool delay 0 then now else now + delay)%Q.

(** ** VoxSource *)

(** A value held by an attribute during [__init__]. *)
Inductive pyval (S : Type) :=
  | VNone
  | VBool (b : bool)
  | VInt (z : Z)
  | VObj (s : S).
Arguments VNone {S}.
Arguments VBool {S} b.
Arguments VInt {S} z.
Arguments VObj {S} s.

Definition opus_error : exn :=
  ValueError "cannot use VoxSource with an Opus source".

Section Vox.
Context {S : Type} `{AudioSource S}.

(** [VoxSource.__init__] on the instance dictionary of the new object:
    the attributes are assigned in order, and the exception leaves the
    dictionary as it was when it was raised. *)
Definition VoxSource_init (source : S) : result () * gmap string (pyval S) :=
  let self : gmap string (pyval S) := ∅ in
  let self := <["source" := VObj source]> self in
  let self := <["active" := VBool false]> self in
  let self := <["threshold" := VInt 16]> self in
  let self := <["duration" := VInt 25]> self in
  let self := <["silent_for" := VInt 0]> self in
  if is_opus source then
    (Raise opus_error, self)
  else
    let self := <["voice" := VNone]> self in
    let self := <["task" := VNone]> self in
    (Ok (), self).

(** The object once it is constructed. *)
Record VoxSource := {
  source : S;
  active : bool;
  threshold : Z;
  duration : Z;
  silent_for : Z;
  voice : option VoiceClient;
  task : option task_state
}.

(** The record of an instance dictionary in which [voice] and [task]
    are still [None]. *)
Definition instance (self : gmap string (pyval S)) : option VoxSource :=
  match self !! "source", self !! "active", self !! "threshold",
        self !! "duration", self !! "silent_for",
        self !! "voice", self !! "task" with
  | Some (VObj s), Some (VBool a), Some (VInt t),
    Some (VInt d), Some (VInt n), Some VNone, Some VNone =>
      Some {| source := s; active := a; threshold := t; duration := d;
              silent_for := n; voice := None; task := None |}
  | _, _, _, _, _, _, _ => None
  end.

(** The expression [VoxSource(source)]: the object when [__init__] returns,
    its exception otherwise.  (After a return all seven attributes are
    assigned, see [VoxSource_new_ok].) *)
Definition VoxSource_new (source : S) : result VoxSource :=
  match VoxSource_init source with
  | (Ok _, self) =>
      match instance self with
      | Some g => Ok g
      | None => Raise (AttributeError "missing attribute")
      end
  | (Raise e, _) => Raise e
  end.

(** The gate as a successful [__init__] leaves it. *)
Definition fresh_gate (source : S) : VoxSource :=
  {| source := source; active := false; threshold := 16; duration := 25;
     silent_for := 0; voice := None; task := None |}.

Definition set_source (s : S) (g : VoxSource) : VoxSource :=
  {| source := s; active := active g; threshold := threshold g;
     duration := duration g; silent_for := silent_for g;
     voice := voice g; task := task g |}.
Definition set_active (a : bool) (g : VoxSource) : VoxSource :=
  {| source := source g; active := a; threshold := threshold g;
     duration := duration g; silent_for := silent_for g;
     voice := voice g; task := task g |}.
Definition set_silent_for (n : Z) (g : VoxSource) : VoxSource :=
  {| source := source g; active := active g; threshold := threshold g;
     duration := duration g; silent_for := n;
     voice := voice g; task := task g |}.
Definition set_voice (v : option VoiceClient) (g : VoxSource) : VoxSource :=
  {| source := source g; active := active g; threshold := threshold g;
     duration := duration g; silent_for := silent_for g;
     voice := v; task := task g |}.
Definition set_task (t : option task_state) (g : VoxSource) : VoxSource :=
  {| source := source g; active := active g; threshold := threshold g;
     duration := duration g; silent_for := silent_for g;
     voice := voice g; task := t |}.

(** *** Methods as computations on the object

    A method takes the object, and gives its result or the exception it
    raised, the object as the method left it, and the events it caused
    in order.  What was assigned before an exception stays assigned. *)
Definition M (A : Type) : Type := VoxSource → result A * VoxSource * list event.

#[export] Instance M_ret : MRet M := λ A a g, (Ok a, g, []).
#[export] Instance M_bind : MBind M := λ A B f m g,
  match m g with
  | (Ok a, g', log) => let '(r, g'', log') := f a g' in (r, g'', log ++ log')
  | (Raise e, g', log) => (Raise e, g', log)
  end.

Definition gets {A} (f : VoxSource → A) : M A := λ g, (Ok (f g), g, []).
Definition modify (f : VoxSource → VoxSource) : M () := λ g, (Ok (), f g, []).
Definition lift {A} (r : result A) : M A := λ g, (r, g, []).
Definition emit (e : event) : M () := λ g, (Ok (), g, [e]).
Definition print (line : string) : M () := emit (Print line).

(** [self.source.read()] *)
Definition source_read : M bytes := λ g,
  let '(r, s) := read (source g) in (r, set_source s g, []).

(** [self.voice.play(self)] *)
Definition voice_play : M () := λ g,
  match voice g with
  | Some v => (Ok (), g, [Play v])
  | None => (Raise (AttributeError "'NoneType' object has no attribute 'play'"), g, [])
  end.

Definition VoxSource_is_opus (g : VoxSource) : bool := is_opus (source g).

Definition VoxSource_read : M bytes :=
  data ← source_read;
  a ← gets active;
  if a : bool then
    m ← lift (py_max data);
    t ← gets threshold;
    if m <? t then
      modify (λ g, set_silent_for (silent_for g + 1) g);;
      n ← gets silent_for;
      d ← gets duration;
      if n >=? d then
        print "VOX off";;
        modify (set_active false);;
        mret []
      else mret data
    else
      modify (set_silent_for 0);;
      mret data
  else mret data.

Definition VoxSource_cleanup : M () := mret ().

(** One turn of the loop of [on_vox], between two readings of the
    clock; its value is the argument of [asyncio.sleep]. *)
Definition on_vox_iter (start_time now : Q) : M Q :=
  a ← gets active;
  (if negb a then
     data ← VoxSource_read;
     m ← lift (py_max data);
     t ← gets threshold;
     if m >=? t then
       print "VOX on";;
       modify (set_active true);;
       voice_play
     else mret ()
   else mret ());;
  mret (sleep_delay start_time now).

(** The loop of [on_vox], for as many turns as there are pairs of clock
    readings before the task is cancelled; an exception ends it. *)
Fixpoint on_vox (clock : list (Q * Q)) : M (list Q) :=
  match clock with
  | [] => mret []
  | (start_time, now) :: clock' =>
      delay ← on_vox_iter start_time now;
      delays ← on_vox clock';
      mret (delay :: delays)
  end.

(** [start_vox] as a coroutine calls it, with the event loop running, so
    that [asyncio.create_task] hands back the task. *)
Definition start_vox (v : VoiceClient) : M () :=
  modify (set_voice (Some v));;
  modify (set_task (Some Running)).

Definition stop_vox : M () :=
  t ← gets task;
  match t with
  | Some _ => modify (set_task (Some Cancelled))
  | None => lift (Raise (AttributeError "'NoneType' object has no attribute 'cancel'"))
  end.

(** *** The two callers of the gate

    The polling task runs turns of [on_vox]; the voice session, while
    it plays the gate, calls [read]. *)
Inductive call :=
  | Poll (start_time now : Q)
  | SessionRead.

Definition perform (c : call) : M () :=
  match c with
  | Poll start_time now => on_vox_iter start_time now;; mret ()
  | SessionRead => VoxSource_read;; mret ()
  end.

(** The calls of a schedule, up to the first one that finds the gate
    inactive. *)
Fixpoint while_active (cs : list call) : M () :=
  match cs with
  | [] => mret ()
  | c :: cs' =>
      a ← gets active;
      if a : bool then perform c;; while_active cs' else mret ()
  end.

(** All calls of a schedule. *)
Fixpoint schedule (cs : list call) : M () :=
  match cs with
  | [] => mret ()
  | c :: cs' => perform c;; schedule cs'
  end.

(** The wrapped source hands out these buffers, one per call, on its
    way from one state to another. *)
Inductive delivers : S → list bytes → S → Prop :=
  | delivers_nil s : delivers s [] s
  | delivers_cons s data s' rest s'' :
      read s = (Ok data, s') → delivers s' rest s'' →
      delivers s (data :: rest) s''.

(** A buffer that the comparison of the gate finds below, or at or
    above, a threshold. *)
Definition quiet (t : Z) (data : bytes) : Prop :=
  ∃ m, py_max data = Ok m ∧ m < t.
Definition loud (t : Z) (data : bytes) : Prop :=
  ∃ m, py_max data = Ok m ∧ t ≤ m.
End Vox.

Arguments VoxSource S : clear implicits.
Arguments M S : clear implicits.

(** ** Runs of calls with their results *)

(** [n] calls of [read] by the session, one after the other, with the
    buffers they return; an exception ends the run. *)
Fixpoint session_reads {S : Type} `{AudioSource S} (n : nat) : M S (list bytes) :=
  match n with
  | O => mret []
  | Datatypes.S n' =>
      data ← VoxSource_read;
      rest ← session_reads n';
      mret (data :: rest)
  end.

(** ** The client *)

Record VoiceChannel := { vc_id : Z; vc_name : string }.

Record Guild := { guild_name : string; voice_channels : list VoiceChannel }.

(** What the client sees of Discord when it is ready: the logged-in user,
    the guilds, and [get_channel] of the library. *)
Record Discord := {
  user : string;
  guilds : list Guild;
  get_channel : Z → option VoiceChannel
}.

(** The attributes [AudioPatchClient.__init__] assigns: [source],
    [channel_id], [channel_name], [guild], [voice].  [channel_id] is an
    integer or Python's [None]; [channel_name] is assigned only when the
    channel is not a number. *)
Record AudioPatchClient := {
  client_source : VoxSource SoundDeviceSource;
  client_channel_id : option Z;
  client_channel_name : option string;
  client_guild : option string;
  client_voice : option VoiceClient
}.

(** How a call ends: it returns, the process exits with a code, or an
    exception escapes. *)
Inductive outcome (A : Type) :=
  | Return (a : A)
  | Exit (code : Z)
  | Fail (e : exn).
Arguments Return {A} a.
Arguments Exit {A} code.
Arguments Fail {A} e.

Inductive output :=
  | Stdout (line : string)
  | Stderr (line : string).

(** [str(x)] for an integer or [None]. *)
Definition py_str (x : option Z) : string :=
  match x with
  | Some i => pretty i
  | None => "None"
  end.

(** A string is true when it is not empty, [None] is false. *)
Definition truthy (x : option string) : bool :=
  match x with
  | Some s => negb (String.eqb s "")
  | None => false
  end.

Record DeviceInfo := { device_name : string; max_input_channels : Z }.

(** The command line as [argparse] hands it over. *)
Record Args := {
  args_channel : option string;
  args_guild : option string;
  args_token : option string;
  args_input : device_id;
  args_list_devices : bool
}.

Section Client.
(** [int(s)] of Python on a string: the integer, or [None] where it raises
    [ValueError]. *)
Variable py_int : string → option Z.
(** What each device delivers once it is opened. *)
Variable capture : device_id → N → Z.
(** [sys.argv[0]] *)
Variable argv0 : string.

(** [int(input_device)] under [try ... except ValueError: pass]. *)
Definition int_or_keep (input_device : device_id) : device_id :=
  match input_device with
  | DeviceIndex i => DeviceIndex i
  | DeviceName s =>
      match py_int s with
      | Some i => DeviceIndex i
      | None => DeviceName s
      end
  end.

Definition AudioPatchClient_init
    (channel : string) (guild : option string) (input_device : device_id)
  : result AudioPatchClient :=
  let input_device := int_or_keep input_device in
  let real_source := SoundDeviceSource_init input_device (capture input_device) in
  match VoxSource_new real_source with
  | Raise e => Raise e
  | Ok source =>
      match py_int channel with
      | Some i =>
          Ok {| client_source := source; client_channel_id := Some i;
                client_channel_name := None; client_guild := guild;
                client_voice := None |}
      | None =>
          Ok {| client_source := source; client_channel_id := None;
                client_channel_name := Some channel; client_guild := guild;
                client_voice := None |}
      end
  end.

(** [self.guild and guild.name != self.guild]: the guild is passed over. *)
Definition passed_over (filter : option string) (g : Guild) : bool :=
  truthy filter &&
  match filter with
  | Some f => negb (String.eqb (guild_name g) f)
  | None => false
  end.

(** The inner loop of [on_ready]: the first voice channel of the guild
    with the name. *)
Definition first_named (channel_name : string) (g : Guild) : option VoiceChannel :=
  List.find (λ c, String.eqb (vc_name c) channel_name) (voice_channels g).

(** The two loops of [on_ready] over the guilds, starting from [channel]:
    a guild that has a match overwrites what was found before. *)
Definition search_guilds (channel_name : string) (filter : option string)
    (gs : list Guild) (channel : option VoiceChannel) : option VoiceChannel :=
  foldl (λ channel g,
           if passed_over filter g then channel
           else match first_named channel_name g with
                | Some c => Some c
                | None => channel
                end)
        channel gs.

(** The search when [self.channel_name] may be missing: the attribute is
    read when the first channel is compared. *)
Definition search_by_name (self : AudioPatchClient) (gs : list Guild)
  : result (option VoiceChannel) :=
  match client_channel_name self with
  | Some n => Ok (search_guilds n (client_guild self) gs None)
  | None =>
      if forallb (λ g, passed_over (client_guild self) g
                       || bool_decide (voice_channels g = [])) gs
      then Ok None
      else Raise (AttributeError
                    "'AudioPatchClient' object has no attribute 'channel_name'")
  end.

(** [on_ready], with [channel.connect()] taken to succeed. *)
Definition on_ready (d : Discord) (self : AudioPatchClient)
  : outcome AudioPatchClient * list output :=
  let logged := Stdout ("Logged on as " +:+ user d) in
  let found :=
    match client_channel_id self with
    | Some i => Return (get_channel d i)
    | None =>
        match search_by_name self (guilds d) with
        | Raise e => Fail e
        | Ok None => Exit 1
        | Ok (Some c) => Return (Some c)
        end
    end in
  match found with
  | Fail e => (Fail e, [logged])
  | Exit code =>
      (Exit code,
       [logged;
        Stderr (argv0 +:+ ": error: can't find channel '"
                +:+ py_str (client_channel_id self) +:+ "'")])
  | Return None =>
      (Fail (AttributeError "'NoneType' object has no attribute 'connect'"),
       [logged])
  | Return (Some c) =>
      let voice := {| channel_name := vc_name c |} : VoiceClient in
      let connected := Stdout ("Connected to voice channel " +:+ vc_name c) in
      match start_vox voice (client_source self) with
      | (Ok _, source, _) =>
          (Return {| client_source := source;
                     client_channel_id := client_channel_id self;
                     client_channel_name := client_channel_name self;
                     client_guild := client_guild self;
                     client_voice := Some voice |},
           [logged; connected])
      | (Raise e, _, _) => (Fail e, [logged; connected])
      end
  end.

(** The loop of [main] that lists the devices, from [device_id] on. *)
Fixpoint list_devices_from (device_id : nat) (devices : list DeviceInfo)
  : list output :=
  match devices with
  | [] => []
  | dev :: rest =>
      (if 0 <? max_input_channels dev
       then [Stdout ("  " +:+ pretty device_id +:+ ":" +:+ " " +:+ device_name dev)]
       else [])
      ++ list_devices_from (Datatypes.S device_id) rest
  end.

(** [main] after the arguments are parsed; [client.run(token)] is its
    return value. *)
Definition main (args : Args) (devices : list DeviceInfo)
  : outcome (AudioPatchClient * string) * list output :=
  let no_token :=
    (Exit 1, [Stderr (argv0 +:+ ": error: --token or $DISCORD_TOKEN required")]) in
  if args_list_devices args then
    (Exit 0,
     [Stdout "Input devices:"] ++ list_devices_from 0 devices ++ [Stdout ""])
  else
    match args_token args with
    | None => no_token
    | Some token =>
        if String.eqb token "" then no_token
        else
          match args_channel args with
          | None => (Exit 1, [Stderr (argv0 +:+ ": error: CHANNEL required")])
          | Some channel =>
              match AudioPatchClient_init channel (args_guild args)
                      (args_input args) with
              | Ok client => (Return (client, token), [])
              | Raise e => (Fail e, [])
              end
          end
    end.
End Client.

(** ** Inputs used in examples *)


(** The voice session of the examples. *)
Definition general : VoiceClient := {| channel_name := "General" |}.

(** Two stereo slots of the sample 20, and of the sample 5. *)
Definition loud_frame : bytes := [x14; x00; x14; x00].
Definition quiet_frame : bytes := [x05; x00; x05; x00].

(** Recorded raw audio. *)
Definition tape (frames : list bytes) : BufferSource :=
  {| opus := false; buffers := frames |}.

(** A gate that is attached to the session and transmitting. *)
Definition transmitting {S : Type} `{AudioSource S} (src : S) (silent : Z)
  : VoxSource S :=
  set_silent_for silent (set_active true (set_voice (Some general) (fresh_gate src))).

(** A gate that is attached to the session and waiting for sound. *)
Definition waiting {S : Type} `{AudioSource S} (src : S) (silent : Z)
  : VoxSource S :=
  set_silent_for silent (set_voice (Some general) (fresh_gate src)).

(** Recorded audio that reports itself as Opus. *)
Definition encoded_tape : BufferSource := {| opus := true; buffers := [] |}.

(** A device that delivers one frame of the sample 20 and then the
    sample 5 for ever. *)
Definition burst_device : SoundDeviceSource :=
  SoundDeviceSource_init (DeviceIndex 0) (λ i, if (i <? 960)%N then 20 else 5).

(** A device that delivers one frame of the sample 20, 25 frames of the
    sample 5, again one frame of the sample 20, and then the sample 5 for
    ever. *)
Definition two_bursts_device : SoundDeviceSource :=
  SoundDeviceSource_init (DeviceIndex 0)
    (λ i, if (i <? 960)%N then 20
          else if (i <? 24960)%N then 5
          else if (i <? 25920)%N then 20 else 5).

(** A device that delivers the same sample for ever. *)
Definition steady_device (sample : Z) : SoundDeviceSource :=
  SoundDeviceSource_init (DeviceIndex 0) (λ _, sample).

(** For examples, in place of Python's [int]: the value of a string of
    ASCII digits; every other string is taken not to be a number. *)
Fixpoint digits_value (acc : Z) (s : string) : option Z :=
  match s with
  | EmptyString => Some acc
  | String a rest =>
      let n := Z.of_nat (Ascii.nat_of_ascii a) - 48 in
      if (0 <=? n) && (n <=? 9) then digits_value (10 * acc + n) rest else None
  end.

Definition ascii_int (s : string) : option Z :=
  if String.eqb s "" then None else digits_value 0 s.

(** Devices that deliver silence. *)
Definition silent_capture : device_id → N → Z := λ _ _, 0.

(** Two guilds that both have a voice channel called General. *)
Definition lobby : VoiceChannel := {| vc_id := 7; vc_name := "General" |}.
Definition music : VoiceChannel := {| vc_id := 8; vc_name := "Music" |}.
Definition hall : VoiceChannel := {| vc_id := 9; vc_name := "General" |}.
Definition home : Guild :=
  {| guild_name := "Home"; voice_channels := [music; lobby] |}.
Definition work : Guild :=
  {| guild_name := "Work"; voice_channels := [hall] |}.
Definition server : Discord :=
  {| user := "patch#0001"; guilds := [home; work];
     get_channel := λ i, if i =? 7 then Some lobby else None |}.

(** A command line that only asks for the devices, and three devices of
    which the second has no input. *)
Definition list_only : Args :=
  {| args_channel := None; args_guild := None; args_token := None;
     args_input := DeviceIndex 0; args_list_devices := true |}.
Definition sound_cards : list DeviceInfo :=
  [ {| device_name := "Microphone"; max_input_channels := 2 |};
    {| device_name := "Speakers"; max_input_channels := 0 |};
    {| device_name := "Line In"; max_input_channels := 1 |} ].

(** ** Bytes and samples: basic facts *)


Lemma byte_val_of_Z z : byte_val (byte_of_Z z) = z mod 256.
Proof.
  unfold byte_val, byte_of_Z.
  pose proof (Z.mod_pos_bound z 256 eq_refl) as Hz.
  destruct (Byte.of_N (Z.to_N (z mod 256))) as [b|] eqn:Hb; simpl.
  - apply Byte.to_of_N in Hb. rewrite Hb. lia.
  - apply Byte.of_N_None_iff in Hb. lia.
Qed.

Lemma int16_roundtrip s :
  is_int16 s → int16_frombytes (byte_of_Z s) (byte_of_Z (s / 256)) = s.
Proof.
  unfold is_int16, int16_frombytes. intros Hs.
  rewrite !byte_val_of_Z.
  pose proof (Z.div_mod s 256 ltac:(lia)) as Hdm.
  pose proof (Z.mod_pos_bound s 256 eq_refl) as Hlo.
  assert (Hq : -128 <= s / 256 <= 127) by lia.
  destruct (Z_lt_le_dec (s / 256) 0) as [Hneg|Hpos].
  - replace ((s / 256) mod 256) with (s / 256 + 256)
      by (apply Z.mod_unique with (-1); lia).
    destruct (Z.ltb_spec (s mod 256 + 256 * (s / 256 + 256)) 32768); lia.
  - rewrite (Z.mod_small (s / 256)) by lia.
    destruct (Z.ltb_spec (s mod 256 + 256 * (s / 256)) 32768); lia.
Qed.

Lemma wrap16_is_int16 z : is_int16 (wrap16 z).
Proof.
  unfold is_int16, wrap16.
  pose proof (Z.mod_pos_bound (z + 32768) 65536 eq_refl). lia.
Qed.

Lemma wrap16_id s : is_int16 s → wrap16 s = s.
Proof.
  unfold is_int16, wrap16. intros Hs.
  rewrite Z.mod_small by lia. lia.
Qed.

(** ** Arrays: shapes, bytes and samples *)

Lemma length_samples_tobytes (row : list Z) :
  length (flat_map int16_tobytes row) = (2 * length row)%nat.
Proof. induction row as [|s row IH]; simpl; [done | lia]. Qed.

Lemma length_repeat_row (n : nat) (row : list Z) :
  length (flat_map (replicate n) row) = (n * length row)%nat.
Proof.
  induction row as [|s row IH]; simpl; [lia|].
  rewrite length_app, length_replicate, IH. lia.
Qed.

Lemma length_tobytes_np_repeat (a : ndarray) (n : nat) :
  length (tobytes (np_repeat a n)) = (n * length (tobytes a))%nat.
Proof.
  unfold tobytes, np_repeat.
  induction a as [|row a IH]; simpl; [lia|].
  rewrite !length_app, IH, !length_samples_tobytes, length_repeat_row. lia.
Qed.

Lemma tobytes_concat (a : ndarray) :
  tobytes a = flat_map int16_tobytes (concat a).
Proof.
  unfold tobytes. induction a as [|row a IH]; simpl; [done|].
  by rewrite flat_map_app, IH.
Qed.

Lemma frombuffer_samples (ss : list Z) :
  Forall is_int16 ss → frombuffer (flat_map int16_tobytes ss) = ss.
Proof.
  induction 1 as [|s ss Hs _ IH]; simpl; [done|].
  by rewrite int16_roundtrip, IH.
Qed.

Lemma mono_frame_samples (a : ndarray) :
  mono_frame a → Forall is_int16 (concat a) ∧ a = map (λ s, [s]) (concat a).
Proof.
  induction 1 as [|row a (s & -> & Hs) _ [IH1 IH2]]; simpl; [done|].
  split; [by constructor | by rewrite <- IH2].
Qed.

Lemma concat_np_repeat_mono (ss : list Z) :
  concat (np_repeat (map (λ s, [s]) ss) 2) = flat_map (λ s, [s; s]) ss.
Proof.
  unfold np_repeat. induction ss as [|s ss IH]; [done|].
  change (s :: s :: concat (map (flat_map (replicate 2)) (map (λ s, [s]) ss))
          = s :: s :: flat_map (λ s, [s; s]) ss).
  by rewrite IH.
Qed.

Lemma Forall_duplicated (P : Z → Prop) (ss : list Z) :
  Forall P ss → Forall P (flat_map (λ s, [s; s]) ss).
Proof. induction 1; simpl; repeat constructor; done. Qed.

Lemma lookup_duplicated (ss : list Z) (i : nat) (s : Z) :
  ss !! i = Some s →
  flat_map (λ s, [s; s]) ss !! (2 * i)%nat = Some s ∧
  flat_map (λ s, [s; s]) ss !! (2 * i + 1)%nat = Some s.
Proof.
  revert i. induction ss as [|s0 ss IH]; intros [|i] Hi; simplify_eq/=.
  - done.
  - replace (i + S (i + 0))%nat with (S (2 * i)) by lia.
    replace (i + S (i + 0) + 1)%nat with (S (2 * i + 1)) by lia.
    simpl. by apply IH.
Qed.






Lemma tobytes_duplicated (ss : list Z) :
  flat_map int16_tobytes (flat_map (λ s, [s; s]) ss) =
  flat_map (λ s, int16_tobytes s ++ int16_tobytes s) ss.
Proof. induction ss as [|s ss IH]; simpl; [done|]. by rewrite IH. Qed.

(** The bytes themselves: each sample's two bytes, twice in a row. *)
Lemma upmix_bytes (data : ndarray) :
  mono_frame data →
  tobytes (np_repeat data 2) =
  flat_map (λ s, int16_tobytes s ++ int16_tobytes s) (concat data).
Proof.
  intros Hmono. destruct (mono_frame_samples data Hmono) as [_ Hshape].
  rewrite tobytes_concat. rewrite Hshape at 1.
  by rewrite concat_np_repeat_mono, tobytes_duplicated.
Qed.

(** ** SoundDeviceSource.read *)

Lemma stream_read_shape (st : InputStream) (frames : nat) :
  let '(data, _, st') := stream_read st frames in
  length data = frames ∧ mono_frame data ∧
  position st' = (position st + N.of_nat frames)%N.
Proof.
  unfold stream_read. rewrite length_map, length_seq.
  split; [done|]. split; [|done].
  unfold mono_frame. apply Forall_map, Forall_forall. intros i _.
  eexists. split; [done | apply wrap16_is_int16].
Qed.

Lemma length_tobytes_mono (a : ndarray) :
  mono_frame a → length (tobytes a) = (2 * length a)%nat.
Proof.
  unfold tobytes. induction 1 as [|row a (s & -> & _) _ IH]; simpl; [done|].
  rewrite IH. lia.
Qed.

Lemma SoundDeviceSource_read_frame_length (self : SoundDeviceSource) :
  length (SoundDeviceSource_read self).1 = 3840%nat.
Proof.
  pose proof (stream_read_shape (stream self) 960) as Hshape.
  unfold SoundDeviceSource_read.
  destruct (stream_read (stream self) 960) as [[data ov] st].
  destruct Hshape as (Hlen & Hmono & _). cbn.
  rewrite length_tobytes_np_repeat, length_tobytes_mono by done. lia.
Qed.

(** C6, as the code has it.  Every call of [SoundDeviceSource.read] takes
    exactly 960 mono 16-bit samples from the stream (1920 bytes of mono
    audio, had they been returned as they are), and returns them with each
    sample duplicated into two channel slots: a stereo frame of 3840
    bytes, never a shorter or a differently shaped one. *)
Theorem SoundDeviceSource_read_stereo_frame (self : SoundDeviceSource) :
  let '(data, _, st) := stream_read (stream self) 960 in
  let '(out, self') := SoundDeviceSource_read self in
  length data = 960%nat ∧ mono_frame data ∧
  length (tobytes data) = 1920%nat ∧
  out = tobytes (np_repeat data 2) ∧
  length out = 3840%nat ∧
  stream self' = st ∧
  position (stream self') = (position (stream self) + 960)%N.
Proof.
  pose proof (stream_read_shape (stream self) 960) as Hshape.
  unfold SoundDeviceSource_read.
  destruct (stream_read (stream self) 960) as [[data ov] st].
  destruct Hshape as (Hlen & Hmono & Hpos). simpl.
  repeat split; try done.
  - rewrite length_tobytes_mono by done. lia.
  - rewrite length_tobytes_np_repeat, length_tobytes_mono by done. lia.
Qed.

(** C6, as the claim has it, fails: the frame returned for a silent device
    is neither 1920 bytes long nor the bytes of the mono samples that were
    captured. *)
Lemma SoundDeviceSource_read_not_mono :
  length (SoundDeviceSource_read (steady_device 0)).1 ≠ 1920%nat ∧
  (SoundDeviceSource_read (steady_device 0)).1 ≠
    tobytes (stream_read (stream (steady_device 0)) 960).1.1.
Proof.
  assert (Hlen : length (SoundDeviceSource_read (steady_device 0)).1 = 3840%nat)
    by (vm_compute; reflexivity).
  split.
  - rewrite Hlen. discriminate.
  - intros Heq. apply (f_equal length) in Heq. rewrite Hlen in Heq.
    vm_compute in Heq. discriminate.
Qed.

(** ** The gate: what a call does, case by case *)

(** Unfolds the plumbing of a method down to its cases. *)
Ltac run_m :=
  unfold mbind, M_bind, mret, M_ret, gets, modify, lift, print, emit; cbn.

Section VoxFacts.
Context {S : Type} `{AudioSource S}.
Implicit Types (g : VoxSource S) (data : bytes) (s : S).

Lemma VoxSource_read_eq g :
  VoxSource_read g =
  match read (source g) with
  | (Raise e, s) => (Raise e, set_source s g, [])
  | (Ok data, s) =>
      let g1 := set_source s g in
      if active g then
        match py_max data with
        | Raise e => (Raise e, g1, [])
        | Ok m =>
            if m <? threshold g then
              if silent_for g + 1 >=? duration g then
                (Ok [], set_active false (set_silent_for (silent_for g + 1) g1),
                 [Print "VOX off"])
              else (Ok data, set_silent_for (silent_for g + 1) g1, [])
            else (Ok data, set_silent_for 0 g1, [])
        end
      else (Ok data, g1, [])
  end.
Proof.
  unfold VoxSource_read, source_read. run_m.
  destruct (read (source g)) as [[data|e] s]; [|done].
  run_m. destruct (active g); [|done].
  destruct (py_max data) as [m|e]; [|done].
  run_m. destruct (m <? threshold g); [|done].
  run_m. destruct (silent_for g + 1 >=? duration g); done.
Qed.

Lemma on_vox_iter_eq (start_time now : Q) g :
  on_vox_iter start_time now g =
  if active g then (Ok (sleep_delay start_time now), g, [])
  else
    match read (source g) with
    | (Raise e, s) => (Raise e, set_source s g, [])
    | (Ok data, s) =>
        let g1 := set_source s g in
        match py_max data with
        | Raise e => (Raise e, g1, [])
        | Ok m =>
            if m >=? threshold g then
              match voice g with
              | Some v =>
                  (Ok (sleep_delay start_time now), set_active true g1,
                   [Print "VOX on"; Play v])
              | None =>
                  (Raise (AttributeError "'NoneType' object has no attribute 'play'"),
                   set_active true g1, [Print "VOX on"])
              end
            else (Ok (sleep_delay start_time now), g1, [])
        end
    end.
Proof.
  unfold on_vox_iter. run_m.
  destruct (active g) eqn:Hact; [done|]. run_m.
  rewrite VoxSource_read_eq, Hact.
  destruct (read (source g)) as [[data|e] s]; [|done].
  run_m. destruct (py_max data) as [m|e]; [|done].
  run_m. destruct (m >=? threshold g); [|done].
  unfold voice_play. run_m. destruct (voice g); done.
Qed.

(** *** Construction *)

Lemma VoxSource_new_ok (src : S) :
  is_opus src = false → VoxSource_new src = Ok (fresh_gate src).
Proof.
  intros Hraw. unfold VoxSource_new, VoxSource_init. rewrite Hraw.
  reflexivity.
Qed.

(** C8.  Constructing the gate over a source that reports [is_opus()]
    fails, always and in the constructor itself, with the
    unsupported-source error; [__init__] assigns nothing after the
    check ([voice] and [task] are never set), and no object comes out.
    It is not an error of the running gate: when the wrapped source
    hands out a buffer, neither [read] nor a turn of [on_vox] raises
    it. *)
Theorem VoxSource_init_rejects_opus (src : S) :
  is_opus src = true →
  VoxSource_new src = Raise opus_error ∧
  VoxSource_init src =
    (Raise opus_error,
     <["silent_for" := VInt 0]> (<["duration" := VInt 25]>
     (<["threshold" := VInt 16]> (<["active" := VBool false]>
     (<["source" := VObj src]> ∅))))) ∧
  (VoxSource_init src).2 !! "voice" = None ∧
  (VoxSource_init src).2 !! "task" = None ∧
  ∀ g data s, read (source g) = (Ok data, s) →
    (VoxSource_read g).1.1 ≠ Raise opus_error ∧
    ∀ start_time now, (on_vox_iter start_time now g).1.1 ≠ Raise opus_error.
Proof.
  intros Hopus. unfold VoxSource_new, VoxSource_init. rewrite Hopus.
  do 4 (split; [reflexivity|]).
  intros g data s Hread. split; [|intros start_time now].
  - rewrite VoxSource_read_eq, Hread. cbn.
    destruct (active g); [|done].
    destruct data as [|b data]; cbn; [done|].
    destruct (_ <? _); [destruct (_ >=? _)|]; done.
  - rewrite on_vox_iter_eq, Hread. cbn.
    destruct (active g); [done|].
    destruct data as [|b data]; cbn; [done|].
    destruct (_ >=? _); [destruct (voice g)|]; done.
Qed.

(** *** Reading while inactive *)

(** C10.  While [active] is false, [read] of the gate gives what [read]
    of the wrapped source gives, advances the wrapped source as that
    call does, leaves [active], [silent_for], [threshold], [duration]
    (and [voice], [task]) as they were, and causes no event. *)
Theorem read_inactive_is_source_read g :
  active g = false →
  (VoxSource_read g).1.1 = (read (source g)).1 ∧
  source (VoxSource_read g).1.2 = (read (source g)).2 ∧
  active (VoxSource_read g).1.2 = active g ∧
  silent_for (VoxSource_read g).1.2 = silent_for g ∧
  threshold (VoxSource_read g).1.2 = threshold g ∧
  duration (VoxSource_read g).1.2 = duration g ∧
  voice (VoxSource_read g).1.2 = voice g ∧
  task (VoxSource_read g).1.2 = task g ∧
  (VoxSource_read g).2 = [].
Proof.
  intros Hact. rewrite VoxSource_read_eq, Hact.
  destruct (read (source g)) as [[data|e] s]; cbn; by rewrite ?Hact.
Qed.

(** *** Reading while active *)

Lemma read_loud g data s m :
  active g = true → read (source g) = (Ok data, s) →
  py_max data = Ok m → threshold g ≤ m →
  VoxSource_read g = (Ok data, set_silent_for 0 (set_source s g), []).
Proof.
  intros Hact Hread Hmax Hm. rewrite VoxSource_read_eq, Hread, Hact, Hmax.
  cbn. by rewrite (proj2 (Z.ltb_ge _ _) Hm).
Qed.

Lemma read_quiet g data s m :
  active g = true → read (source g) = (Ok data, s) →
  py_max data = Ok m → m < threshold g → silent_for g + 1 < duration g →
  VoxSource_read g =
    (Ok data, set_silent_for (silent_for g + 1) (set_source s g), []).
Proof.
  intros Hact Hread Hmax Hm Hn. rewrite VoxSource_read_eq, Hread, Hact, Hmax.
  cbn. rewrite (proj2 (Z.ltb_lt _ _) Hm).
  rewrite Z.geb_leb, (proj2 (Z.leb_gt _ _) Hn). done.
Qed.

Lemma read_switches_off g data s m :
  active g = true → read (source g) = (Ok data, s) →
  py_max data = Ok m → m < threshold g → duration g ≤ silent_for g + 1 →
  VoxSource_read g =
    (Ok [],
     set_active false (set_silent_for (silent_for g + 1) (set_source s g)),
     [Print "VOX off"]).
Proof.
  intros Hact Hread Hmax Hm Hn. rewrite VoxSource_read_eq, Hread, Hact, Hmax.
  cbn. rewrite (proj2 (Z.ltb_lt _ _) Hm).
  rewrite Z.geb_leb, (proj2 (Z.leb_le _ _) Hn). done.
Qed.

Lemma py_max_nonempty data : data ≠ [] → ∃ m, py_max data = Ok m.
Proof. destruct data; [done | eauto]. Qed.

Lemma read_total g data s :
  read (source g) = (Ok data, s) →
  data ≠ [] ∨ active g = false →
  (VoxSource_read g).1.1 = Ok data ∨ (VoxSource_read g).1.1 = Ok [].
Proof.
  intros Hread Hdom. destruct (active g) eqn:Hact.
  - destruct Hdom as [Hne|]; [|done].
    destruct (py_max_nonempty data Hne) as [m Hmax].
    destruct (Z.lt_ge_cases m (threshold g)) as [Hm|Hm].
    + destruct (Z.lt_ge_cases (silent_for g + 1) (duration g)) as [Hn|Hn].
      * rewrite (read_quiet g data s m) by done. by left.
      * rewrite (read_switches_off g data s m) by done. by right.
    + rewrite (read_loud g data s m) by done. by left.
  - rewrite VoxSource_read_eq, Hread, Hact. by left.
Qed.

(** Whenever the wrapped source hands out a buffer that is not empty, or
    the gate is inactive, [read] of the gate returns that very buffer or
    the empty buffer; and when the gate is active and [max] of the bytes
    of the buffer is at or above the threshold, it returns the buffer and
    stays active. *)
Theorem read_returns_frame_or_nothing g data s :
  read (source g) = (Ok data, s) →
  data ≠ [] ∨ active g = false →
  ((VoxSource_read g).1.1 = Ok data ∨ (VoxSource_read g).1.1 = Ok []) ∧
  ∀ m, active g = true → py_max data = Ok m → threshold g ≤ m →
    (VoxSource_read g).1.1 = Ok data ∧ active (VoxSource_read g).1.2 = true.
Proof.
  intros Hread Hdom. split; [by apply (read_total g data s)|].
  intros m Hact Hmax Hm. rewrite (read_loud g data s m) by done.
  split; [done|]. exact Hact.
Qed.

(** *** The polling task *)

Lemma plays_app (l1 l2 : list event) :
  plays (l1 ++ l2) = (plays l1 + plays l2)%nat.
Proof. unfold plays. by rewrite filter_app, length_app. Qed.

Lemma poll_active_idle (start_time now : Q) g :
  active g = true →
  on_vox_iter start_time now g = (Ok (sleep_delay start_time now), g, []).
Proof. intros Hact. by rewrite on_vox_iter_eq, Hact. Qed.

Lemma poll_quiet (start_time now : Q) g data s :
  active g = false → read (source g) = (Ok data, s) →
  quiet (threshold g) data →
  on_vox_iter start_time now g =
    (Ok (sleep_delay start_time now), set_source s g, []).
Proof.
  intros Hact Hread (m & Hmax & Hm).
  rewrite on_vox_iter_eq, Hact, Hread, Hmax. cbn.
  by rewrite Z.geb_leb, (proj2 (Z.leb_gt _ _) Hm).
Qed.

Lemma poll_loud (start_time now : Q) g data s v :
  active g = false → voice g = Some v → read (source g) = (Ok data, s) →
  loud (threshold g) data →
  on_vox_iter start_time now g =
    (Ok (sleep_delay start_time now), set_active true (set_source s g),
     [Print "VOX on"; Play v]).
Proof.
  intros Hact Hvoice Hread (m & Hmax & Hm).
  rewrite on_vox_iter_eq, Hact, Hread, Hmax, Hvoice. cbn.
  by rewrite Z.geb_leb, (proj2 (Z.leb_le _ _) Hm).
Qed.

Lemma on_vox_cons (start_time now : Q) (clock : list (Q * Q)) g :
  on_vox ((start_time, now) :: clock) g =
  match on_vox_iter start_time now g with
  | (Ok delay, g1, log1) =>
      match on_vox clock g1 with
      | (Ok delays, g2, log2) => (Ok (delay :: delays), g2, log1 ++ log2)
      | (Raise e, g2, log2) => (Raise e, g2, log1 ++ log2)
      end
  | (Raise e, g1, log1) => (Raise e, g1, log1)
  end.
Proof.
  cbn [on_vox]. run_m.
  destruct (on_vox_iter start_time now g) as [[[delay|e] g1] log1]; [|done].
  destruct (on_vox clock g1) as [[[delays|e] g2] log2]; cbn;
    by rewrite ?app_nil_r.
Qed.

(** A gate that is active is left alone by the loop, for any number of
    turns. *)
Lemma on_vox_active_idle (clock : list (Q * Q)) g :
  active g = true →
  on_vox clock g = (Ok (map (λ t, sleep_delay t.1 t.2) clock), g, []).
Proof.
  intros Hact. induction clock as [|[start_time now] clock IH]; [done|].
  by rewrite on_vox_cons, poll_active_idle, IH.
Qed.

Lemma read_no_play g : plays (VoxSource_read g).2 = 0%nat.
Proof.
  rewrite VoxSource_read_eq.
  destruct (read (source g)) as [[data|e] s]; [|done]. cbn.
  destruct (active g); [|done].
  destruct (py_max data) as [m|e]; [|done].
  destruct (m <? threshold g); [destruct (_ >=? _)|]; done.
Qed.

Lemma perform_no_play (c : call) g :
  active g = true → plays (perform c g).2 = 0%nat.
Proof.
  intros Hact. destruct c as [start_time now|]; unfold perform; run_m.
  - by rewrite poll_active_idle.
  - pose proof (read_no_play g) as Hread.
    destruct (VoxSource_read g) as [[[data|e] g'] log]; cbn in *;
      by rewrite ?app_nil_r.
Qed.

Lemma while_active_no_play (cs : list call) g :
  plays (while_active cs g).2 = 0%nat.
Proof.
  revert g. induction cs as [|c cs IH]; intros g; [done|].
  cbn [while_active]. run_m. destruct (active g) eqn:Hact; [|done].
  pose proof (perform_no_play c g Hact) as Hc.
  destruct (perform c g) as [[[[]|e] g1] log1]; [|done].
  specialize (IH g1).
  destruct (while_active cs g1) as [[r g2] log2]. cbn [fst snd] in *.
  rewrite plays_app. lia.
Qed.

(** Polls that find quiet buffers change nothing but the position of
    the wrapped source. *)
Lemma on_vox_quiet (clock : list (Q * Q)) (frames : list bytes) g s :
  active g = false → delivers (source g) frames s →
  Forall (quiet (threshold g)) frames → length clock = length frames →
  on_vox clock g =
    (Ok (map (λ t, sleep_delay t.1 t.2) clock), set_source s g, []).
Proof.
  intros Hact Hdel. revert clock.
  remember (source g) as s0 eqn:Hs0. revert g Hact Hs0.
  induction Hdel as [s0|s0 data s1 rest s2 Hread _ IH];
    intros g Hact -> [|[start_time now] clock] Hquiet Hlen;
    cbn [length] in Hlen; try discriminate.
  - by destruct g.
  - apply Forall_cons in Hquiet as [Hq Hquiet].
    rewrite on_vox_cons, (poll_quiet _ _ g data s1) by done.
    rewrite (IH (set_source s1 g)); [done..|lia].
Qed.

(** When the gate is inactive and attached to a session, and the wrapped
    source hands out any number of buffers that the comparison of the
    gate finds below the threshold and then one that it finds at or above
    it, the polling task leaves the gate alone on the quiet buffers, and
    on the loud one sets [active] and calls [voice.play(self)]: once.
    From there on, whatever the polling task and the session do while the
    gate stays active, playback is not requested again; in particular
    further turns of the loop do nothing. *)
Theorem poll_requests_playback_once
    (clock : list (Q * Q)) (start_time now : Q)
    (frames : list bytes) (data : bytes) g s v :
  active g = false → voice g = Some v →
  delivers (source g) (frames ++ [data]) s →
  Forall (quiet (threshold g)) frames → loud (threshold g) data →
  length clock = length frames →
  let polled := on_vox (clock ++ [(start_time, now)]) g in
  polled.1.2 = set_active true (set_source s g) ∧
  polled.2 = [Print "VOX on"; Play v] ∧
  plays polled.2 = 1%nat ∧
  (∀ cs, plays (polled.2 ++ (while_active cs polled.1.2).2) = 1%nat) ∧
  (∀ later, (on_vox later polled.1.2).1.2 = polled.1.2 ∧
            (on_vox later polled.1.2).2 = []).
Proof.
  intros Hact Hvoice Hdel Hquiet Hloud Hlen.
  assert (Hrun : on_vox (clock ++ [(start_time, now)]) g =
    (Ok (map (λ t, sleep_delay t.1 t.2) (clock ++ [(start_time, now)])),
     set_active true (set_source s g), [Print "VOX on"; Play v])).
  { clear -Hact Hvoice Hdel Hquiet Hloud Hlen.
    revert g frames Hact Hvoice Hdel Hquiet Hlen Hloud.
    induction clock as [|[t0 t1] clock IH];
      intros g [|frame frames] Hact Hvoice Hdel Hquiet Hlen Hloud;
      cbn [length] in Hlen; try discriminate.
    - inversion Hdel as [|? ? s1 ? ? Hread Hrest]; subst.
      inversion Hrest; subst.
      by rewrite app_nil_l, on_vox_cons, (poll_loud _ _ g data s v).
    - inversion Hdel as [|? ? s1 ? ? Hread Hrest]; subst.
      apply Forall_cons in Hquiet as [Hq Hquiet].
      rewrite <- app_comm_cons, on_vox_cons, (poll_quiet _ _ g frame s1) by done.
      rewrite (IH (set_source s1 g) frames); [done..|lia|done]. }
  intros polled. subst polled. rewrite Hrun. cbn [fst snd].
  split; [done|]. split; [done|]. split; [done|]. split.
  - intros cs. rewrite plays_app, while_active_no_play. done.
  - intros later. by rewrite on_vox_active_idle.
Qed.

(** *** The session pulling through a pause *)

Lemma perform_read g :
  perform SessionRead g =
  match VoxSource_read g with
  | (Ok _, g1, log) => (Ok (), g1, log)
  | (Raise e, g1, log) => (Raise e, g1, log)
  end.
Proof.
  unfold perform. run_m.
  destruct (VoxSource_read g) as [[[data|e] g1] log]; cbn; by rewrite ?app_nil_r.
Qed.

Lemma schedule_cons (c : call) (cs : list call) g :
  schedule (c :: cs) g =
  match perform c g with
  | (Ok _, g1, log1) =>
      let '(r, g2, log2) := schedule cs g1 in (r, g2, log1 ++ log2)
  | (Raise e, g1, log1) => (Raise e, g1, log1)
  end.
  Proof. cbn [schedule]. run_m. by destruct (perform c g) as [[[[]|e] g1] log1]. Qed.

(** Quiet frames that do not fill the hangover are passed on and
    counted. *)
Lemma session_reads_through_pause (frames : list bytes) g s :
  active g = true → delivers (source g) frames s →
  Forall (quiet (threshold g)) frames →
  silent_for g + Z.of_nat (length frames) < duration g →
  schedule (replicate (length frames) SessionRead) g =
    (Ok (),
     set_silent_for (silent_for g + Z.of_nat (length frames)) (set_source s g),
     []).
Proof.
  intros Hact Hdel. remember (source g) as s0 eqn:Hs0. revert g Hact Hs0.
  induction Hdel as [s0|s0 data s1 rest s2 Hread _ IH];
    intros g Hact -> Hquiet Hlen.
  - destruct g. cbn. unfold set_silent_for, set_source. cbn.
    by rewrite Z.add_0_r.
  - apply Forall_cons in Hquiet as [(m & Hmax & Hm) Hquiet].
    cbn [length replicate] in *.
    rewrite schedule_cons, perform_read.
    rewrite (read_quiet g data s1 m) by (done || lia).
    rewrite (IH (set_silent_for (silent_for g + 1) (set_source s1 g)))
      by (try done; cbn; lia).
    unfold set_silent_for, set_source. cbn. do 3 f_equal. lia.
Qed.

(** The frame that fills the hangover switches the gate off; the count
    of quiet frames stays where it was when that happened. *)
Lemma session_read_ends_pause (frames : list bytes) (data : bytes) g s :
  active g = true → delivers (source g) (frames ++ [data]) s →
  Forall (quiet (threshold g)) (frames ++ [data]) →
  silent_for g + Z.of_nat (length frames) + 1 = duration g →
  schedule (replicate (length frames) SessionRead ++ [SessionRead]) g =
    (Ok (), set_active false (set_silent_for (duration g) (set_source s g)),
     [Print "VOX off"]).
Proof.
  revert g.
  induction frames as [|frame frames IH]; intros g Hact Hdel Hquiet Hlen.
  - inversion Hdel as [|? ? s1 ? ? Hread Hrest]; subst. inversion Hrest; subst.
    apply Forall_cons in Hquiet as [(m & Hmax & Hm) _].
    cbn [length replicate app] in *.
    rewrite schedule_cons, perform_read.
    rewrite (read_switches_off g data s m) by (done || lia).
    cbn. do 4 f_equal. lia.
  - inversion Hdel as [|? ? s1 ? ? Hread Hrest]; subst.
    apply Forall_cons in Hquiet as [(m & Hmax & Hm) Hquiet].
    cbn [length replicate app] in *.
    rewrite schedule_cons, perform_read.
    rewrite (read_quiet g frame s1 m) by (done || lia).
    rewrite (IH (set_silent_for (silent_for g + 1) (set_source s1 g)))
      by (try done; cbn; lia).
    done.
Qed.
End VoxFacts.

(** ** Witnesses on recorded audio *)

Lemma VoxSource_init_rejects_opus_witness :
  VoxSource_new encoded_tape = Raise opus_error.
Proof.
  exact (proj1 (VoxSource_init_rejects_opus encoded_tape eq_refl)).
Defined.

Lemma read_inactive_is_source_read_witness :
  (VoxSource_read (waiting (tape [loud_frame]) 7)).1.1 = Ok loud_frame ∧
  silent_for (VoxSource_read (waiting (tape [loud_frame]) 7)).1.2 = 7.
Proof.
  pose proof (read_inactive_is_source_read
                (waiting (tape [loud_frame]) 7) eq_refl) as Hread.
  split; [apply Hread | apply (proj1 (proj2 (proj2 (proj2 Hread))))].
Defined.

Lemma read_returns_frame_or_nothing_witness :
  ((VoxSource_read (transmitting (tape [loud_frame]) 3)).1.1 = Ok loud_frame ∨
   (VoxSource_read (transmitting (tape [loud_frame]) 3)).1.1 = Ok []) ∧
  ∀ m, active (transmitting (tape [loud_frame]) 3) = true →
    py_max loud_frame = Ok m →
    threshold (transmitting (tape [loud_frame]) 3) ≤ m →
    (VoxSource_read (transmitting (tape [loud_frame]) 3)).1.1 = Ok loud_frame ∧
    active (VoxSource_read (transmitting (tape [loud_frame]) 3)).1.2 = true.
Proof.
  apply (read_returns_frame_or_nothing
           (transmitting (tape [loud_frame]) 3) loud_frame (tape [])).
  - reflexivity.
  - left. discriminate.
Defined.

Lemma poll_requests_playback_once_witness :
  let polled :=
    on_vox ([(0, 0.02); (0.022, 0.042)] ++ [(0.044, 0.064)])%Q
           (waiting (tape [quiet_frame; quiet_frame; loud_frame]) 0) in
  polled.1.2 =
    set_active true
      (set_source (tape [])
         (waiting (tape [quiet_frame; quiet_frame; loud_frame]) 0)) ∧
  polled.2 = [Print "VOX on"; Play general] ∧
  plays polled.2 = 1%nat ∧
  (∀ cs, plays (polled.2 ++ (while_active cs polled.1.2).2) = 1%nat) ∧
  (∀ later, (on_vox later polled.1.2).1.2 = polled.1.2 ∧
            (on_vox later polled.1.2).2 = []).
Proof.
  apply (poll_requests_playback_once
           [(0, 0.02); (0.022, 0.042)]%Q 0.044%Q 0.064%Q
           [quiet_frame; quiet_frame] loud_frame
           (waiting (tape [quiet_frame; quiet_frame; loud_frame]) 0)
           (tape []) general).
  - reflexivity.
  - reflexivity.
  - repeat (eapply delivers_cons; [reflexivity|]). apply delivers_nil.
  - repeat (constructor; [exists 5; split; [reflexivity | reflexivity]|]).
    constructor.
  - exists 20. split; [reflexivity | discriminate].
  - reflexivity.
Defined.

(** An active gate over a source that hands out the empty buffer does
    not return a buffer at all; [max] raises. *)
Lemma read_of_empty_buffer_raises :
  read (source (transmitting (tape []) 0)) = (Ok [], tape []) ∧
  (VoxSource_read (transmitting (tape []) 0)).1.1 =
    Raise (ValueError "max() arg is an empty sequence") ∧
  ¬ ((VoxSource_read (transmitting (tape []) 0)).1.1 =
       (read (source (transmitting (tape []) 0))).1 ∨
     (VoxSource_read (transmitting (tape []) 0)).1.1 = Ok []).
Proof.
  split; [reflexivity|]. split; [reflexivity|].
  intros [Hout|Hout]; discriminate Hout.
Qed.

(** ** The gate on the sound device *)

Lemma read_device (self : SoundDeviceSource) :
  read self = (Ok (SoundDeviceSource_read self).1, (SoundDeviceSource_read self).2).
Proof.
  change (read self) with
    (let '(data, self') := SoundDeviceSource_read self in (Ok data, self')).
  generalize (SoundDeviceSource_read self). by intros [data self'].
Qed.

(** Over the sound device, whose frames are never empty, every call of
    [read] of the gate returns the frame of the device or the empty
    buffer. *)
Lemma read_over_device_total (g : VoxSource SoundDeviceSource) :
  (VoxSource_read g).1.1 = Ok (SoundDeviceSource_read (source g)).1 ∨
  (VoxSource_read g).1.1 = Ok [].
Proof.
  pose proof (SoundDeviceSource_read_frame_length (source g)) as Hlen.
  apply (read_total g _ (SoundDeviceSource_read (source g)).2).
  - apply read_device.
  - left. intros Hnil. rewrite Hnil in Hlen. discriminate Hlen.
Qed.

(** *** The count of quiet frames across a pause *)

(** C1 on the code.  A transmitting gate that has counted 24 quiet frames
    reads one more from a device that delivers the sample 5: the call
    returns the empty buffer and clears [active], but [silent_for] is left
    at 25, and the next call (a poll, since the gate is inactive) still
    finds 25. *)
Theorem read_switch_off_leaves_counter :
  let off := VoxSource_read (transmitting (steady_device 5) 24) in
  let next := VoxSource_read off.1.2 in
  off.1.1 = Ok [] ∧ active off.1.2 = false ∧ off.2 = [Print "VOX off"] ∧
  silent_for off.1.2 = 25 ∧ silent_for next.1.2 = 25.
Proof. vm_compute. repeat split; reflexivity. Qed.

(** That state is one the program reaches by itself: the gate is built
    over the device, attached, switched on by a loud frame, and then
    pulled 25 times while the device is quiet. *)
Lemma first_pause_reaches_counter_25 :
  VoxSource_new burst_device = Ok (fresh_gate burst_device) ∧
  let run := (start_vox general;;
              schedule (Poll 0 0.02 :: replicate 25 SessionRead))
               (fresh_gate burst_device) in
  active run.1.2 = false ∧ silent_for run.1.2 = 25 ∧
  run.2 = [Print "VOX on"; Play general; Print "VOX off"].
Proof. split; [reflexivity|]. vm_compute. repeat split; reflexivity. Qed.

(** C3 on the code.  A waiting gate whose counter is still at 25 from the
    last switch-off polls a loud frame: it sets [active] and asks the
    session to play, but [silent_for] stays 25; the first quiet frame the
    session pulls then switches the gate off again at once, instead of
    after 25 of them. *)
Theorem poll_switch_on_leaves_counter :
  let on := on_vox_iter 0 0.02 (waiting burst_device 25) in
  let pulled := VoxSource_read on.1.2 in
  active on.1.2 = true ∧ on.2 = [Print "VOX on"; Play general] ∧
  silent_for on.1.2 = 25 ∧
  pulled.1.1 = Ok [] ∧ active pulled.1.2 = false ∧
  pulled.2 = [Print "VOX off"].
Proof. vm_compute. repeat split; reflexivity. Qed.

(** The same in a run of the program from the constructor on: after the
    first pause the counter is stale, and the second burst of sound is cut
    off by the first quiet frame that follows it. *)
Lemma second_pause_is_cut_short :
  let run := (start_vox general;;
              schedule (Poll 0 0.02 :: replicate 25 SessionRead ++
                        [Poll 0.6 0.62; SessionRead]))%Q
               (fresh_gate two_bursts_device) in
  run.1.1 = Ok () ∧ active run.1.2 = false ∧ silent_for run.1.2 = 26 ∧
  run.2 = [Print "VOX on"; Play general; Print "VOX off";
           Print "VOX on"; Play general; Print "VOX off"].
Proof. vm_compute. repeat split; reflexivity. Qed.

(** *** What is compared with the threshold *)





(** C2 on the code.  A device that delivers the sample -1 produces frames
    whose peak amplitude is 1, below the threshold 16; but the largest
    byte of such a frame is 255, so a transmitting gate takes the frame
    for sound (it clears its count of quiet frames and returns the
    frame), and a waiting gate is switched on by it. *)
Theorem gate_compares_bytes_not_samples :
  let frame := (SoundDeviceSource_read (steady_device (-1))).1 in
  let pulled := VoxSource_read (transmitting (steady_device (-1)) 24) in
  let polled := on_vox_iter 0 0.02 (waiting (steady_device (-1)) 0) in
  Forall (λ s, Z.abs s < 16) (frombuffer frame) ∧
  peak_amplitude frame = 1 ∧ py_max frame = Ok 255 ∧
  pulled.1.1 = Ok frame ∧ active pulled.1.2 = true ∧
  silent_for pulled.1.2 = 0 ∧
  active polled.1.2 = true ∧ polled.2 = [Print "VOX on"; Play general].
Proof.
  cbv zeta. split.
  - apply Forall_forall. intros s Hs.
    assert (Hall : forallb (λ s, Z.abs s <? 16)
              (frombuffer (SoundDeviceSource_read (steady_device (-1))).1) = true)
      by (vm_compute; reflexivity).
    rewrite forallb_forall in Hall. apply Z.ltb_lt, Hall.
    by apply list_elem_of_In.
  - vm_compute. repeat split; reflexivity.
Qed.

(** The other way round: a device that delivers the sample 256 produces
    frames of peak amplitude 256, far above the threshold, whose largest
    byte is 1; a waiting gate is not switched on by them, and a
    transmitting gate counts them as quiet. *)
Lemma gate_misses_high_byte_samples :
  let frame := (SoundDeviceSource_read (steady_device 256)).1 in
  let pulled := VoxSource_read (transmitting (steady_device 256) 24) in
  let polled := on_vox_iter 0 0.02 (waiting (steady_device 256) 0) in
  peak_amplitude frame = 256 ∧ py_max frame = Ok 1 ∧
  pulled.1.1 = Ok [] ∧ active pulled.1.2 = false ∧
  active polled.1.2 = false ∧ polled.2 = [].
Proof. vm_compute. repeat split; reflexivity. Qed.

(** C7 on the code.  An active gate that has counted 24 quiet frames
    pulls, from a device that delivers the sample 256, a frame whose peak
    amplitude 256 is far above the threshold 16.  The largest byte of the
    frame is 1, so [read] takes the frame for quiet: it returns the empty
    buffer instead of the frame and clears [active]. *)
Theorem read_drops_frame_above_threshold :
  let g := transmitting (steady_device 256) 24 in
  let frame := (SoundDeviceSource_read (steady_device 256)).1 in
  let pulled := VoxSource_read g in
  (read (source g)).1 = Ok frame ∧ length frame = 3840%nat ∧
  active g = true ∧ threshold g ≤ peak_amplitude frame ∧
  pulled.1.1 = Ok [] ∧ pulled.1.1 ≠ Ok frame ∧
  active pulled.1.2 = false ∧ pulled.2 = [Print "VOX off"].
Proof.
  cbv zeta.
  assert (Hlen : length (SoundDeviceSource_read (steady_device 256)).1 = 3840%nat)
    by apply SoundDeviceSource_read_frame_length.
  assert (Hpulled : (VoxSource_read (transmitting (steady_device 256) 24)).1.1
                    = Ok []) by (vm_compute; reflexivity).
  split; [by rewrite read_device|]. split; [done|].
  split; [reflexivity|]. split; [vm_compute; discriminate|].
  split; [done|]. split.
  - rewrite Hpulled. revert Hlen.
    generalize (SoundDeviceSource_read (steady_device 256)).1.
    intros frame Hlen [= <-]. discriminate Hlen.
  - vm_compute. split; reflexivity.
Qed.

(** C9 on the code.  A waiting gate polls, three times in a row, a device
    that delivers the sample 256: every frame has the peak amplitude 256,
    above the threshold 16, yet the gate stays inactive and playback is
    never requested, because the largest byte of such a frame is 1. *)
Theorem poll_misses_frames_above_threshold :
  let g := waiting (steady_device 256) 0 in
  let first := SoundDeviceSource_read (source g) in
  let second := SoundDeviceSource_read first.2 in
  let third := SoundDeviceSource_read second.2 in
  let clock := [(0, 0.02); (0.042, 0.062); (0.084, 0.104)]%Q in
  let polled := on_vox clock g in
  active g = false ∧ voice g = Some general ∧
  threshold g ≤ peak_amplitude first.1 ∧
  threshold g ≤ peak_amplitude second.1 ∧
  threshold g ≤ peak_amplitude third.1 ∧
  source polled.1.2 = third.2 ∧
  polled.1.1 = Ok (map (λ t, sleep_delay t.1 t.2) clock) ∧
  active polled.1.2 = false ∧ polled.2 = [] ∧ plays polled.2 = 0%nat.
Proof.
  cbv zeta. split; [reflexivity|]. split; [reflexivity|].
  do 3 (split; [vm_compute; discriminate|]).
  vm_compute. repeat split; reflexivity.
Qed.

(** ** The sleep of the polling task *)

Lemma sleep_delay_is_elapsed_plus_2ms (start_time now : Q) :
  (sleep_delay start_time now == (now - start_time) + 0.002)%Q.
Proof. unfold sleep_delay. lra. Qed.

(** The delay is 2 ms minus the elapsed time only when no time has
    elapsed. *)
Lemma sleep_delay_drift_corrected_iff (start_time now : Q) :
  (sleep_delay start_time now == 0.002 - (now - start_time))%Q ↔
  (now == start_time)%Q.
Proof. unfold sleep_delay. split; intros Heq; lra. Qed.

(** From one start of a turn to the next, at the earliest. *)
Lemma poll_period (start_time now : Q) :
  (start_time <= now)%Q →
  (wake_time now (sleep_delay start_time now) - start_time ==
   2 * (now - start_time) + 0.002)%Q.
Proof.
  intros Hle. unfold wake_time.
  destruct (Qle_bool (sleep_delay start_time now) 0) eqn:Hneg.
  - apply Qle_bool_iff in Hneg. unfold sleep_delay in *. lra.
  - unfold sleep_delay. lra.
Qed.

(** C4 on the code.  A turn of the loop that starts at 10 s and has spent
    20 ms on a blocking read when it reaches the sleep sleeps for 22 ms,
    the elapsed time plus 2 ms, not for 2 ms minus the elapsed time; the
    next turn starts 42 ms after this one at the earliest. *)
Theorem on_vox_sleeps_elapsed_plus_2ms :
  let turn := on_vox_iter 10 10.02 (waiting (tape [quiet_frame]) 0) in
  turn.1.1 = Ok (sleep_delay 10 10.02) ∧
  (sleep_delay 10 10.02 == 0.022)%Q ∧
  ¬ (sleep_delay 10 10.02 == 0.002 - (10.02 - 10))%Q ∧
  (wake_time 10.02 (sleep_delay 10 10.02) - 10 == 0.042)%Q.
Proof.
  cbv zeta. split; [reflexivity|]. split; [reflexivity|].
  split; [|reflexivity]. intros Heq. vm_compute in Heq. discriminate Heq.
Qed.


(** ** More on the gate *)



Section VoxMore.
Context {S : Type} `{AudioSource S}.
Implicit Types (g : VoxSource S) (data : bytes) (s : S).

(** The constructor returns an object exactly for a source that is not
    Opus, and then always the same one: inactive, threshold 16, duration
    25, no quiet frame counted, no session and no task; that object
    reports itself as not Opus. *)
Theorem VoxSource_new_succeeds_iff (src : S) g :
  (VoxSource_new src = Ok g ↔ is_opus src = false ∧ g = fresh_gate src) ∧
  (VoxSource_new src = Ok g → VoxSource_is_opus g = false).
Proof.
  assert (Hiff : VoxSource_new src = Ok g ↔
                 is_opus src = false ∧ g = fresh_gate src).
  { destruct (is_opus src) eqn:Hopus.
    - unfold VoxSource_new, VoxSource_init. rewrite Hopus.
      split; [discriminate | by intros [? _]].
    - rewrite (VoxSource_new_ok src Hopus).
      split; [intros [= <-]; done | intros [_ ->]; done]. }
  split; [done|]. intros Hnew. apply Hiff in Hnew as [Hopus ->]. done.
Qed.

(** A call of [read] takes exactly one buffer from the wrapped source,
    whatever the state of the gate and however the call ends, and never
    changes [threshold], [duration], [voice] or [task]. *)
Theorem read_pulls_one_frame g :
  source (VoxSource_read g).1.2 = (read (source g)).2 ∧
  threshold (VoxSource_read g).1.2 = threshold g ∧
  duration (VoxSource_read g).1.2 = duration g ∧
  voice (VoxSource_read g).1.2 = voice g ∧
  task (VoxSource_read g).1.2 = task g.
Proof.
  rewrite VoxSource_read_eq.
  destruct (read (source g)) as [[data|e] s]; [|cbn; repeat split; done]. cbn.
  destruct (active g); [|cbn; repeat split; done].
  destruct (py_max data) as [m|e]; [|cbn; repeat split; done].
  destruct (m <? threshold g); [destruct (_ >=? _)|]; cbn; repeat split; done.
Qed.

(** A turn of [on_vox] takes no buffer from the wrapped source while the
    gate is active and exactly one while it is inactive; it never changes
    [silent_for], [threshold], [duration], [voice] or [task], and never
    clears [active]. *)
Theorem poll_pulls_only_while_inactive (start_time now : Q) g :
  source (on_vox_iter start_time now g).1.2 =
    (if active g then source g else (read (source g)).2) ∧
  silent_for (on_vox_iter start_time now g).1.2 = silent_for g ∧
  threshold (on_vox_iter start_time now g).1.2 = threshold g ∧
  duration (on_vox_iter start_time now g).1.2 = duration g ∧
  voice (on_vox_iter start_time now g).1.2 = voice g ∧
  task (on_vox_iter start_time now g).1.2 = task g ∧
  (active g = true → active (on_vox_iter start_time now g).1.2 = true).
Proof.
  rewrite on_vox_iter_eq.
  destruct (active g) eqn:Hact; [cbn; repeat split; (done || (intros; congruence))|].
  destruct (read (source g)) as [[data|e] s];
    [|cbn; repeat split; (done || (intros; congruence))]. cbn.
  destruct (py_max data) as [m|e];
    [|cbn; repeat split; (done || (intros; congruence))].
  destruct (m >=? threshold g); [destruct (voice g) eqn:Hvoice|];
    cbn; repeat split; (done || (intros; congruence)).
Qed.

(** On a buffer that is not empty, [read] returns the empty buffer
    exactly in the call that switches the gate off, and that is the only
    call that prints. *)
Theorem read_empty_iff_switch_off g data s :
  read (source g) = (Ok data, s) → data ≠ [] →
  ((VoxSource_read g).1.1 = Ok [] ↔
     active g = true ∧ active (VoxSource_read g).1.2 = false) ∧
  ((VoxSource_read g).2 = [Print "VOX off"] ↔
     active g = true ∧ active (VoxSource_read g).1.2 = false) ∧
  ((VoxSource_read g).2 = [] ∨ (VoxSource_read g).2 = [Print "VOX off"]).
Proof.
  intros Hread Hne. destruct (py_max_nonempty data Hne) as [m Hmax].
  assert (Hdata : Ok data ≠ Ok []) by congruence.
  rewrite VoxSource_read_eq, Hread. cbn.
  destruct (active g) eqn:Hact.
  - rewrite Hmax.
    destruct (m <? threshold g); [destruct (_ >=? _)|]; cbn; rewrite ?Hact;
      intuition congruence.
  - cbn. rewrite Hact. intuition congruence.
Qed.

Lemma session_reads_S (n : nat) g :
  session_reads (Datatypes.S n) g =
  match VoxSource_read g with
  | (Ok data, g1, log1) =>
      match session_reads n g1 with
      | (Ok rest, g2, log2) => (Ok (data :: rest), g2, log1 ++ log2)
      | (Raise e, g2, log2) => (Raise e, g2, log1 ++ log2)
      end
  | (Raise e, g1, log1) => (Raise e, g1, log1)
  end.
Proof.
  cbn [session_reads]. run_m.
  destruct (VoxSource_read g) as [[[data|e] g1] log1]; [|done].
  destruct (session_reads n g1) as [[[rest|e] g2] log2]; cbn;
    by rewrite ?app_nil_r.
Qed.

Lemma session_reads_quiet (frames : list bytes) g s :
  active g = true → delivers (source g) frames s →
  Forall (quiet (threshold g)) frames →
  silent_for g + Z.of_nat (length frames) < duration g →
  session_reads (length frames) g =
    (Ok frames,
     set_silent_for (silent_for g + Z.of_nat (length frames)) (set_source s g),
     []).
Proof.
  intros Hact Hdel. remember (source g) as s0 eqn:Hs0. revert g Hact Hs0.
  induction Hdel as [s0|s0 data s1 rest s2 Hread _ IH];
    intros g Hact -> Hquiet Hlen.
  - destruct g. cbn. unfold set_silent_for, set_source. cbn.
    by rewrite Z.add_0_r.
  - apply Forall_cons in Hquiet as [(m & Hmax & Hm) Hquiet].
    cbn [length] in *.
    rewrite session_reads_S.
    rewrite (read_quiet g data s1 m) by (done || lia).
    rewrite (IH (set_silent_for (silent_for g + 1) (set_source s1 g)))
      by (try done; cbn; lia).
    unfold set_silent_for, set_source. cbn. do 3 f_equal. lia.
Qed.

(** A pause shorter than the hangover is transmitted as it is: the quiet
    frames are returned unchanged, the gate stays active, and it has
    counted them. *)
Theorem pause_within_hangover_passes (frames : list bytes) g s :
  active g = true → delivers (source g) frames s →
  Forall (quiet (threshold g)) frames →
  silent_for g + Z.of_nat (length frames) < duration g →
  session_reads (length frames) g =
    (Ok frames,
     set_silent_for (silent_for g + Z.of_nat (length frames)) (set_source s g),
     []).
Proof. apply session_reads_quiet. Qed.

(** The hangover ends on the frame that completes [duration] quiet
    frames in a row and not before: the frames before it are returned
    unchanged, that call returns the empty buffer and clears [active]. *)
Theorem pause_of_hangover_switches_off (frames : list bytes) data g s :
  active g = true → delivers (source g) (frames ++ [data]) s →
  Forall (quiet (threshold g)) (frames ++ [data]) →
  silent_for g + Z.of_nat (length frames) + 1 = duration g →
  session_reads (Datatypes.S (length frames)) g =
    (Ok (frames ++ [[]]),
     set_active false (set_silent_for (duration g) (set_source s g)),
     [Print "VOX off"]).
Proof.
  revert g.
  induction frames as [|frame frames IH]; intros g Hact Hdel Hquiet Hlen.
  - inversion Hdel as [|? ? s1 ? ? Hread Hrest]; subst. inversion Hrest; subst.
    apply Forall_cons in Hquiet as [(m & Hmax & Hm) _].
    cbn [length app] in *.
    rewrite session_reads_S.
    rewrite (read_switches_off g data s m) by (done || lia).
    cbn. do 4 f_equal. lia.
  - inversion Hdel as [|? ? s1 ? ? Hread Hrest]; subst.
    apply Forall_cons in Hquiet as [(m & Hmax & Hm) Hquiet].
    cbn [length app] in *.
    rewrite session_reads_S.
    rewrite (read_quiet g frame s1 m) by (done || lia).
    rewrite (IH (set_silent_for (silent_for g + 1) (set_source s1 g)))
      by (try done; cbn; lia).
    done.
Qed.

(** A loud frame starts the count again: quiet frames, a loud frame and
    more quiet frames are all returned unchanged and the gate stays
    active, as long as each of the two quiet runs is shorter than the
    hangover, however long they are together. *)
Theorem loud_frame_restarts_count (before after : list bytes) data g s :
  active g = true →
  delivers (source g) (before ++ data :: after) s →
  Forall (quiet (threshold g)) before → loud (threshold g) data →
  Forall (quiet (threshold g)) after →
  silent_for g + Z.of_nat (length before) < duration g →
  Z.of_nat (length after) < duration g →
  session_reads (length (before ++ data :: after)) g =
    (Ok (before ++ data :: after),
     set_silent_for (Z.of_nat (length after)) (set_source s g), []).
Proof.
  revert g.
  induction before as [|frame before IH];
    intros g Hact Hdel Hbefore (m & Hmax & Hm) Hafter Hlen1 Hlen2.
  - inversion Hdel as [|? ? s1 ? ? Hread Hrest]; subst.
    cbn [length app] in *.
    rewrite session_reads_S, (read_loud g data s1 m) by done.
    rewrite (session_reads_quiet after
               (set_silent_for 0 (set_source s1 g)) s) by (try done; cbn; lia).
    done.
  - inversion Hdel as [|? ? s1 ? ? Hread Hrest]; subst.
    apply Forall_cons in Hbefore as [(m' & Hmax' & Hm') Hbefore].
    cbn [length app] in *.
    rewrite session_reads_S, (read_quiet g frame s1 m') by (done || lia).
    rewrite (IH (set_silent_for (silent_for g + 1) (set_source s1 g)))
      by (try done; try (by exists m); cbn; lia).
    done.
Qed.

(** An empty buffer ends the polling task: the turn that receives it
    while the gate is inactive raises [ValueError] from [max], so no later
    turn runs; the gate stays inactive and nothing is played. *)
Theorem poll_of_empty_buffer_ends_loop
    (start_time now : Q) (clock : list (Q * Q)) g s :
  active g = false → read (source g) = (Ok [], s) →
  on_vox ((start_time, now) :: clock) g =
    (Raise (ValueError "max() arg is an empty sequence"), set_source s g, []).
Proof.
  intros Hact Hread. by rewrite on_vox_cons, on_vox_iter_eq, Hact, Hread.
Qed.


(** A gate that is polled before it is attached to a session is stuck by
    the first loud frame: the turn sets [active], fails on
    [self.voice.play], and from then on neither that turn's loop nor any
    later polling requests playback. *)
Theorem unattached_poll_sticks (start_time now : Q) g data s :
  active g = false → voice g = None →
  read (source g) = (Ok data, s) → loud (threshold g) data →
  on_vox_iter start_time now g =
    (Raise (AttributeError "'NoneType' object has no attribute 'play'"),
     set_active true (set_source s g), [Print "VOX on"]) ∧
  ∀ later, on_vox later (set_active true (set_source s g)) =
    (Ok (map (λ t, sleep_delay t.1 t.2) later),
     set_active true (set_source s g), []).
Proof.
  intros Hact Hvoice Hread (m & Hmax & Hm). split.
  - rewrite on_vox_iter_eq, Hact, Hread, Hmax, Hvoice. cbn.
    by rewrite Z.geb_leb, (proj2 (Z.leb_le _ _) Hm).
  - intros later. by apply on_vox_active_idle.
Qed.

Lemma perform_keeps_task (c : call) g : task (perform c g).1.2 = task g.
Proof.
  destruct c as [start_time now|]; unfold perform; run_m.
  - rewrite on_vox_iter_eq. destruct (active g); [done|].
    destruct (read (source g)) as [[data|e] s]; [|done]. cbn.
    destruct (py_max data) as [m|e]; [|done].
    destruct (m >=? threshold g); [destruct (voice g)|]; done.
  - rewrite VoxSource_read_eq.
    destruct (read (source g)) as [[data|e] s]; [|done]. cbn.
    destruct (active g); [|done].
    destruct (py_max data) as [m|e]; [|done].
    destruct (m <? threshold g); [destruct (_ >=? _)|]; done.
Qed.

Lemma schedule_keeps_task (cs : list call) g :
  task (schedule cs g).1.2 = task g.
Proof.
  revert g. induction cs as [|c cs IH]; intros g; [done|].
  rewrite schedule_cons. pose proof (perform_keeps_task c g) as Hc.
  destruct (perform c g) as [[[[]|e] g1] log1]; [|done].
  specialize (IH g1). destruct (schedule cs g1) as [[r g2] log2].
  cbn in *. congruence.
Qed.

(** [stop_vox] needs [start_vox]: as long as [start_vox] has not been
    called, [task] is [None] and [stop_vox] raises [AttributeError] and
    changes nothing, on the gate as the constructor leaves it and after
    any calls of [read] and turns of [on_vox]. *)
Theorem stop_vox_needs_start_vox (src : S) g (cs : list call) :
  VoxSource_new src = Ok g →
  task (schedule cs g).1.2 = None ∧
  stop_vox (schedule cs g).1.2 =
    (Raise (AttributeError "'NoneType' object has no attribute 'cancel'"),
     (schedule cs g).1.2, []).
Proof.
  intros Hnew.
  assert (Hg : g = fresh_gate src).
  { destruct (is_opus src) eqn:Hopus.
    - unfold VoxSource_new, VoxSource_init in Hnew. by rewrite Hopus in Hnew.
    - rewrite (VoxSource_new_ok src Hopus) in Hnew. by simplify_eq. }
  assert (Htask : task (schedule cs g).1.2 = None)
    by (rewrite schedule_keeps_task; by subst g).
  split; [done|]. unfold stop_vox. run_m. by rewrite Htask.
Qed.
End VoxMore.

(** ** More on the sound device *)

Lemma stream_read_samples (st : InputStream) (frames : nat) :
  concat (stream_read st frames).1.1 =
  map (λ i, wrap16 (signal st (position st + N.of_nat i)%N)) (seq 0 frames).
Proof.
  unfold stream_read. cbn [fst].
  induction (seq 0 frames) as [|i l IH]; [done|]. cbn. by rewrite <- IH.
Qed.

Lemma SoundDeviceSource_read_samples (self : SoundDeviceSource) :
  frombuffer (SoundDeviceSource_read self).1 =
  flat_map (λ s, [s; s])
    (map (λ i, wrap16 (signal (stream self)
                         (position (stream self) + N.of_nat i)%N))
         (seq 0 960)).
Proof.
  pose proof (stream_read_shape (stream self) 960) as Hshape.
  pose proof (stream_read_samples (stream self) 960) as Hsamples.
  unfold SoundDeviceSource_read.
  destruct (stream_read (stream self) 960) as [[data ov] st].
  destruct Hshape as (_ & Hmono & _). cbn [fst] in *.
  destruct (mono_frame_samples data Hmono) as [Hrange Hrows].
  rewrite tobytes_concat. rewrite Hrows at 1.
  rewrite concat_np_repeat_mono, Hsamples.
  apply frombuffer_samples, Forall_duplicated.
  by rewrite <- Hsamples.
Qed.

Lemma SoundDeviceSource_read_stream (self : SoundDeviceSource) :
  stream (SoundDeviceSource_read self).2 =
  {| device := device (stream self); signal := signal (stream self);
     position := (position (stream self) + 960)%N |}.
Proof.
  unfold SoundDeviceSource_read.
  change (stream_read (stream self) 960) with
    (map (λ i, [wrap16 (signal (stream self)
                          (position (stream self) + N.of_nat i)%N)])
         (seq 0 960),
     false,
     {| device := device (stream self); signal := signal (stream self);
        position := (position (stream self) + N.of_nat 960)%N |}).
  reflexivity.
Qed.

Lemma read_carries_samples (self : SoundDeviceSource) (i : nat) :
  (i < 960)%nat →
  frombuffer (SoundDeviceSource_read self).1 !! (2 * i)%nat =
    Some (wrap16 (signal (stream self) (position (stream self) + N.of_nat i)%N)) ∧
  frombuffer (SoundDeviceSource_read self).1 !! (2 * i + 1)%nat =
    Some (wrap16 (signal (stream self) (position (stream self) + N.of_nat i)%N)).
Proof.
  intros Hi. rewrite SoundDeviceSource_read_samples.
  apply lookup_duplicated. rewrite list_lookup_fmap, lookup_seq_lt by done.
  done.
Qed.

(** A call of [read] on the device source returns the next 960 samples of
    the device, each of them in both channel slots of its stereo frame,
    and leaves the stream 960 samples further on. *)
Theorem SoundDeviceSource_read_carries_signal (self : SoundDeviceSource) (i : nat) :
  (i < 960)%nat →
  frombuffer (SoundDeviceSource_read self).1 !! (2 * i)%nat =
    Some (wrap16 (signal (stream self) (position (stream self) + N.of_nat i)%N)) ∧
  frombuffer (SoundDeviceSource_read self).1 !! (2 * i + 1)%nat =
    Some (wrap16 (signal (stream self) (position (stream self) + N.of_nat i)%N)) ∧
  position (stream (SoundDeviceSource_read self).2) =
    (position (stream self) + 960)%N ∧
  signal (stream (SoundDeviceSource_read self).2) = signal (stream self).
Proof.
  intros Hi. destruct (read_carries_samples self i Hi) as [Heven Hodd].
  rewrite SoundDeviceSource_read_stream. done.
Qed.


(** ** The client *)

Section ClientFacts.
Variable py_int : string → option Z.
Variable capture : device_id → N → Z.
Variable argv0 : string.

Lemma first_named_Some (n : string) (g : Guild) (c : VoiceChannel) :
  first_named n g = Some c → c ∈ voice_channels g ∧ vc_name c = n.
Proof.
  unfold first_named. intros Hfind. apply find_some in Hfind as [Hin Heq].
  split; [by apply list_elem_of_In | by apply String.eqb_eq].
Qed.

Lemma first_named_None (n : string) (g : Guild) :
  first_named n g = None ↔ ∀ c, c ∈ voice_channels g → vc_name c ≠ n.
Proof.
  unfold first_named. split.
  - intros Hfind c Hin Heq. apply list_elem_of_In in Hin.
    pose proof (find_none _ _ Hfind c Hin) as Hneq. cbn in Hneq.
    apply String.eqb_neq in Hneq. done.
  - intros Hall.
    destruct (find _ (voice_channels g)) as [c|] eqn:Hfind; [|done].
    apply find_some in Hfind as [Hin Heq].
    apply String.eqb_eq in Heq. apply list_elem_of_In in Hin.
    by destruct (Hall c Hin).
Qed.

Lemma search_guilds_cons (n : string) (filter : option string)
    (g : Guild) (gs : list Guild) (channel : option VoiceChannel) :
  search_guilds n filter (g :: gs) channel =
  search_guilds n filter gs
    (if passed_over filter g then channel
     else match first_named n g with Some c => Some c | None => channel end).
Proof. reflexivity. Qed.

Lemma search_guilds_sound (n : string) (filter : option string)
    (gs : list Guild) (channel : option VoiceChannel) (c : VoiceChannel) :
  search_guilds n filter gs channel = Some c →
  channel = Some c ∨
  ∃ g, g ∈ gs ∧ passed_over filter g = false ∧
       c ∈ voice_channels g ∧ vc_name c = n.
Proof.
  revert channel. induction gs as [|g gs IH]; intros channel Hsearch.
  - by left.
  - rewrite search_guilds_cons in Hsearch.
    apply IH in Hsearch as [Hacc|(g' & Hin & Hrest)].
    + destruct (passed_over filter g) eqn:Hskip; [by left|].
      destruct (first_named n g) as [c'|] eqn:Hfirst; [|by left].
      simplify_eq. apply first_named_Some in Hfirst as [Hc Hname].
      right. exists g. split; [left|]; done.
    + right. exists g'. split; [by right | done].
Qed.

Lemma search_guilds_None (n : string) (filter : option string)
    (gs : list Guild) (channel : option VoiceChannel) :
  search_guilds n filter gs channel = None ↔
  channel = None ∧
  ∀ g, g ∈ gs → passed_over filter g = false → first_named n g = None.
Proof.
  revert channel. induction gs as [|g gs IH]; intros channel.
  - cbn. split; [|by intros [Hc _]].
    intros Hc. split; [done|]. intros g Hin. by apply elem_of_nil in Hin.
  - rewrite search_guilds_cons, IH. split.
    + intros [Hacc Hrest].
      destruct (passed_over filter g) eqn:Hskip.
      * split; [done|]. intros g' [->|Hin]%elem_of_cons Hg'; [congruence|].
        by apply Hrest.
      * destruct (first_named n g) eqn:Hfirst; [done|].
        split; [done|]. intros g' [->|Hin]%elem_of_cons Hg'; [done|].
        by apply Hrest.
    + intros [-> Hall]. split.
      * destruct (passed_over filter g) eqn:Hskip; [done|].
        by rewrite (Hall g (list_elem_of_here _ _) Hskip).
      * intros g' Hin. apply Hall. by right.
Qed.

Lemma search_guilds_unchanged (n : string) (filter : option string)
    (gs : list Guild) (channel : option VoiceChannel) :
  (∀ g, g ∈ gs → passed_over filter g = true ∨ first_named n g = None) →
  search_guilds n filter gs channel = channel.
Proof.
  revert channel. induction gs as [|g gs IH]; intros channel Hall; [done|].
  rewrite search_guilds_cons, IH by (intros g' Hin; apply Hall; by right).
  destruct (Hall g (list_elem_of_here _ _)) as [->| ->]; [done|].
  by destruct (passed_over filter g).
Qed.

(** The search of [on_ready] by name finds nothing exactly when no guild
    that is not passed over has a voice channel of that name; and what it
    finds is a voice channel of that name in a guild that is not passed
    over. *)
Theorem search_guilds_finds_named_channel
    (n : string) (filter : option string) (gs : list Guild) :
  (search_guilds n filter gs None = None ↔
   ∀ g c, g ∈ gs → passed_over filter g = false →
          c ∈ voice_channels g → vc_name c ≠ n) ∧
  (∀ c, search_guilds n filter gs None = Some c →
        ∃ g, g ∈ gs ∧ passed_over filter g = false ∧
             c ∈ voice_channels g ∧ vc_name c = n).
Proof.
  split.
  - rewrite search_guilds_None. split.
    + intros [_ Hall] g c Hg Hskip. by apply first_named_None, Hall.
    + intros Hall. split; [done|]. intros g Hg Hskip.
      apply first_named_None. intros c. by apply Hall.
  - intros c Hsearch.
    by apply search_guilds_sound in Hsearch as [?|?].
Qed.

(** When several guilds have a voice channel of the name, the search
    takes the last of them in the order of the guilds, and in that guild
    the first channel of the name: the [break] leaves only the inner
    loop. *)
Theorem search_guilds_last_guild_wins
    (n : string) (filter : option string)
    (earlier later : list Guild) (g : Guild) (c : VoiceChannel) :
  passed_over filter g = false → first_named n g = Some c →
  (∀ g', g' ∈ later → passed_over filter g' = true ∨ first_named n g' = None) →
  search_guilds n filter (earlier ++ g :: later) None = Some c.
Proof.
  intros Hskip Hfirst Hlater. unfold search_guilds. rewrite foldl_app.
  fold (search_guilds n filter earlier None).
  fold (search_guilds n filter (g :: later) (search_guilds n filter earlier None)).
  rewrite search_guilds_cons, Hskip, Hfirst.
  by apply search_guilds_unchanged.
Qed.

Lemma AudioPatchClient_init_eq
    (channel : string) (guild : option string) (input_device : device_id) :
  AudioPatchClient_init py_int capture channel guild input_device =
  Ok {| client_source :=
          fresh_gate
            (SoundDeviceSource_init (int_or_keep py_int input_device)
               (capture (int_or_keep py_int input_device)));
        client_channel_id := py_int channel;
        client_channel_name :=
          match py_int channel with Some _ => None | None => Some channel end;
        client_guild := guild;
        client_voice := None |}.
Proof.
  unfold AudioPatchClient_init.
  rewrite VoxSource_new_ok by done. by destruct (py_int channel).
Qed.

(** Once the stream of the device is open the client is always
    constructed: the gate over the sound device is never refused as Opus.
    The device is opened by index when it was
    given as an index or as a string that is a number, by name
    otherwise; [channel_id] is the number the channel stands for, and
    [channel_name] is assigned exactly when there is none. *)
Theorem AudioPatchClient_init_ok
    (channel : string) (guild : option string) (input_device : device_id) :
  AudioPatchClient_init py_int capture channel guild input_device =
  Ok {| client_source :=
          fresh_gate
            (SoundDeviceSource_init (int_or_keep py_int input_device)
               (capture (int_or_keep py_int input_device)));
        client_channel_id := py_int channel;
        client_channel_name :=
          match py_int channel with Some _ => None | None => Some channel end;
        client_guild := guild;
        client_voice := None |} ∧
  (∀ i, int_or_keep py_int (DeviceIndex i) = DeviceIndex i) ∧
  (∀ s, int_or_keep py_int (DeviceName s) =
        match py_int s with Some i => DeviceIndex i | None => DeviceName s end).
Proof. split; [apply AudioPatchClient_init_eq | done]. Qed.

(** A client made for a channel name connects to the channel the search
    finds and attaches the gate, still inactive, to that voice session;
    when the search finds nothing it exits with code 1, and the message
    then names the channel ['None'], whatever name was asked for. *)
Theorem on_ready_by_name
    (channel : string) (guild : option string) (input_device : device_id)
    (d : Discord) (self : AudioPatchClient) :
  AudioPatchClient_init py_int capture channel guild input_device = Ok self →
  py_int channel = None →
  on_ready argv0 d self =
  match search_guilds channel guild (guilds d) None with
  | Some c =>
      (Return {| client_source :=
                   set_task (Some Running)
                     (set_voice (Some {| channel_name := vc_name c |})
                        (client_source self));
                 client_channel_id := None;
                 client_channel_name := Some channel;
                 client_guild := guild;
                 client_voice := Some {| channel_name := vc_name c |} |},
       [Stdout ("Logged on as " +:+ user d);
        Stdout ("Connected to voice channel " +:+ vc_name c)])
  | None =>
      (Exit 1,
       [Stdout ("Logged on as " +:+ user d);
        Stderr (argv0 +:+ ": error: can't find channel 'None'")])
  end ∧
  active (client_source self) = false ∧ client_voice self = None.
Proof.
  intros Hinit Hname.
  rewrite AudioPatchClient_init_eq, Hname in Hinit. simplify_eq. split; [|done].
  unfold on_ready, search_by_name. cbn.
  by destruct (search_guilds channel guild (guilds d) None).
Qed.

(** A client made for a channel number asks [get_channel] and never
    looks at the guilds; when [get_channel] knows no such channel, the
    call does not exit with the message but fails with [AttributeError]
    on [channel.connect]. *)
Theorem on_ready_by_id
    (channel : string) (guild : option string) (input_device : device_id)
    (i : Z) (d : Discord) (self : AudioPatchClient) :
  AudioPatchClient_init py_int capture channel guild input_device = Ok self →
  py_int channel = Some i →
  on_ready argv0 d self =
  match get_channel d i with
  | Some c =>
      (Return {| client_source :=
                   set_task (Some Running)
                     (set_voice (Some {| channel_name := vc_name c |})
                        (client_source self));
                 client_channel_id := Some i;
                 client_channel_name := None;
                 client_guild := guild;
                 client_voice := Some {| channel_name := vc_name c |} |},
       [Stdout ("Logged on as " +:+ user d);
        Stdout ("Connected to voice channel " +:+ vc_name c)])
  | None =>
      (Fail (AttributeError "'NoneType' object has no attribute 'connect'"),
       [Stdout ("Logged on as " +:+ user d)])
  end.
Proof.
  intros Hinit Hid.
  rewrite AudioPatchClient_init_eq, Hid in Hinit. simplify_eq.
  unfold on_ready. cbn. by destruct (get_channel d i).
Qed.

(** ** The command line *)

Lemma list_devices_from_spec (k : nat) (devices : list DeviceInfo) (out : output) :
  out ∈ list_devices_from k devices ↔
  ∃ i dev, devices !! i = Some dev ∧ 0 < max_input_channels dev ∧
    out = Stdout ("  " +:+ pretty (k + i)%nat +:+ ":" +:+ " " +:+ device_name dev).
Proof.
  revert k. induction devices as [|dev0 devices IH]; intros k.
  - cbn. split; [by intros ?%elem_of_nil | by intros (i & dev & ? & _)].
  - cbn [list_devices_from]. rewrite elem_of_app, IH. split.
    + intros [Hhere|(i & dev & Hi & Hpos & ->)].
      * destruct (Z.ltb_spec 0 (max_input_channels dev0)) as [Hpos|Hpos];
          [|by apply elem_of_nil in Hhere].
        apply list_elem_of_singleton in Hhere as ->.
        exists 0%nat, dev0. by rewrite Nat.add_0_r.
      * exists (Datatypes.S i), dev.
        replace (k + Datatypes.S i)%nat with (Datatypes.S k + i)%nat by lia.
        done.
    + intros ([|i] & dev & Hi & Hpos & ->); simplify_eq/=.
      * left. rewrite (proj2 (Z.ltb_lt _ _) Hpos), Nat.add_0_r.
        by apply list_elem_of_singleton.
      * right. exists i, dev.
        replace (k + Datatypes.S i)%nat with (Datatypes.S (k + i)) by lia.
        done.
Qed.

Lemma list_devices_from_eq (k : nat) (devices : list DeviceInfo) :
  list_devices_from k devices =
  map (λ p : nat * DeviceInfo,
         Stdout ("  " +:+ pretty p.1 +:+ ":" +:+ " " +:+ device_name p.2))
      (filter (λ p : nat * DeviceInfo, 0 < max_input_channels p.2)
              (zip (seq k (length devices)) devices)).
Proof.
  revert k. induction devices as [|dev devices IH]; intros k; [done|].
  cbn [list_devices_from length seq zip zip_with]. rewrite filter_cons, IH.
  cbn [snd]. destruct (Z.ltb_spec 0 (max_input_channels dev)) as [Hpos|Hpos].
  - by rewrite decide_True.
  - by rewrite decide_False by lia.
Qed.

(** With [--list-devices], [main] exits with code 0 whatever else is or
    is not on the command line.  After the heading it prints exactly one
    line for each device that has input channels, in the order of the
    devices, and none for the others; the number on the line is the
    position of the device among all devices, inputs or not, which is
    the index [--input] takes.  An empty line ends the listing. *)
Theorem main_lists_input_devices (args : Args) (devices : list DeviceInfo) :
  args_list_devices args = true →
  main py_int capture argv0 args devices =
    (Exit 0,
     Stdout "Input devices:" ::
     map (λ p : nat * DeviceInfo,
            Stdout ("  " +:+ pretty p.1 +:+ ":" +:+ " " +:+ device_name p.2))
         (filter (λ p : nat * DeviceInfo, 0 < max_input_channels p.2)
                 (zip (seq 0 (length devices)) devices))
     ++ [Stdout ""]) ∧
  ∀ out, out ∈ list_devices_from 0 devices ↔
    ∃ i dev, devices !! i = Some dev ∧ 0 < max_input_channels dev ∧
      out = Stdout ("  " +:+ pretty i +:+ ":" +:+ " " +:+ device_name dev).
Proof.
  intros Hlist. split.
  - unfold main. rewrite Hlist. by rewrite <- list_devices_from_eq.
  - intros out. apply (list_devices_from_spec 0).
Qed.

(** [main] runs the client exactly when devices are not to be listed, the
    token is there and not empty, and a channel is given; the client is
    then the one [AudioPatchClient] constructs from the channel, the
    guild and the input device.  It exits with code 0 exactly for
    [--list-devices], and with code 1 exactly when devices are not to be
    listed and the token or the channel is missing. *)
Theorem main_runs_client_iff (args : Args) (devices : list DeviceInfo)
    (client : AudioPatchClient) (token : string) :
  ((main py_int capture argv0 args devices).1 = Return (client, token) ↔
   args_list_devices args = false ∧
   args_token args = Some token ∧ token ≠ "" ∧
   ∃ channel, args_channel args = Some channel ∧
     AudioPatchClient_init py_int capture channel (args_guild args)
       (args_input args) = Ok client) ∧
  ((main py_int capture argv0 args devices).1 = Exit 0 ↔
   args_list_devices args = true) ∧
  ((main py_int capture argv0 args devices).1 = Exit 1 ↔
   args_list_devices args = false ∧
   (args_token args = None ∨ args_token args = Some "" ∨
    args_channel args = None)).
Proof.
  unfold main.
  destruct (args_list_devices args); cbn.
  { split; [split; [done | by intros [? _]]|]. split; [done|].
    split; [done | by intros [? _]]. }
  destruct (args_token args) as [tok|]; cbn.
  2:{ split; [split; [done | by intros (_ & ? & _)]|]. split; [done|].
      split; [|done]. intros _. split; [done | by left]. }
  destruct (String.eqb_spec tok "") as [->|Hne]; cbn.
  { split; [split; [done|]|].
    - intros (_ & [= <-] & Hne & _). done.
    - split; [done|]. split; [|done]. intros _. split; [done|]. right. by left. }
  destruct (args_channel args) as [channel|]; cbn.
  2:{ split; [split; [done | by intros (_ & _ & _ & ? & ? & _)]|].
      split; [done|]. split; [|done]. intros _. split; [done|]. right. by right. }
  pose proof (AudioPatchClient_init_eq channel (args_guild args)
                (args_input args)) as Hok.
  rewrite Hok. cbn. split; [|split; [done|]].
  - split.
    + intros [= <- <-]. repeat split; try done. by exists channel.
    + intros (_ & [= <-] & _ & channel' & [= <-] & Hinit).
      rewrite Hok in Hinit. by simplify_eq.
  - split; [done|]. intros [_ [?|[[= ->]|?]]]; done.
Qed.
End ClientFacts.

(** ** The further facts on examples *)

Lemma read_empty_iff_switch_off_witness :
  (VoxSource_read (transmitting (tape [quiet_frame]) 24)).1.1 = Ok [] ↔
  active (transmitting (tape [quiet_frame]) 24) = true ∧
  active (VoxSource_read (transmitting (tape [quiet_frame]) 24)).1.2 = false.
Proof.
  apply (read_empty_iff_switch_off
           (transmitting (tape [quiet_frame]) 24) quiet_frame (tape [])).
  - reflexivity.
  - discriminate.
Defined.

Lemma pause_within_hangover_passes_witness :
  session_reads 2 (transmitting (tape [quiet_frame; quiet_frame]) 3) =
  (Ok [quiet_frame; quiet_frame],
   set_silent_for (3 + 2)
     (set_source (tape []) (transmitting (tape [quiet_frame; quiet_frame]) 3)),
   []).
Proof.
  apply (pause_within_hangover_passes [quiet_frame; quiet_frame]
           (transmitting (tape [quiet_frame; quiet_frame]) 3) (tape [])).
  - reflexivity.
  - repeat (eapply delivers_cons; [reflexivity|]). apply delivers_nil.
  - repeat (constructor; [exists 5; split; reflexivity|]). constructor.
  - reflexivity.
Defined.

Lemma pause_of_hangover_switches_off_witness :
  session_reads 2 (transmitting (tape [quiet_frame; quiet_frame]) 23) =
  (Ok ([quiet_frame] ++ [[]]),
   set_active false
     (set_silent_for 25
        (set_source (tape [])
           (transmitting (tape [quiet_frame; quiet_frame]) 23))),
   [Print "VOX off"]).
Proof.
  apply (pause_of_hangover_switches_off [quiet_frame] quiet_frame
           (transmitting (tape [quiet_frame; quiet_frame]) 23) (tape [])).
  - reflexivity.
  - repeat (eapply delivers_cons; [reflexivity|]). apply delivers_nil.
  - repeat (constructor; [exists 5; split; reflexivity|]). constructor.
  - reflexivity.
Defined.

Lemma loud_frame_restarts_count_witness :
  session_reads 3
    (transmitting (tape [quiet_frame; loud_frame; quiet_frame]) 23) =
  (Ok ([quiet_frame] ++ loud_frame :: [quiet_frame]),
   set_silent_for 1
     (set_source (tape [])
        (transmitting (tape [quiet_frame; loud_frame; quiet_frame]) 23)),
   []).
Proof.
  apply (loud_frame_restarts_count [quiet_frame] [quiet_frame] loud_frame
           (transmitting (tape [quiet_frame; loud_frame; quiet_frame]) 23)
           (tape [])).
  - reflexivity.
  - repeat (eapply delivers_cons; [reflexivity|]). apply delivers_nil.
  - repeat (constructor; [exists 5; split; reflexivity|]). constructor.
  - exists 20. split; [reflexivity | discriminate].
  - repeat (constructor; [exists 5; split; reflexivity|]). constructor.
  - reflexivity.
  - reflexivity.
Defined.

Lemma poll_of_empty_buffer_ends_loop_witness :
  on_vox [(0, 0.02); (0.04, 0.06)]%Q (waiting (tape []) 0) =
  (Raise (ValueError "max() arg is an empty sequence"),
   set_source (tape []) (waiting (tape []) 0), []).
Proof.
  apply (poll_of_empty_buffer_ends_loop 0 0.02%Q [(0.04, 0.06)]%Q
           (waiting (tape []) 0) (tape [])); reflexivity.
Defined.


Lemma unattached_poll_sticks_witness :
  on_vox_iter 0 0.02 (fresh_gate (tape [loud_frame])) =
  (Raise (AttributeError "'NoneType' object has no attribute 'play'"),
   set_active true (set_source (tape []) (fresh_gate (tape [loud_frame]))),
   [Print "VOX on"]).
Proof.
  apply (unattached_poll_sticks 0 0.02%Q
           (fresh_gate (tape [loud_frame])) loud_frame (tape [])).
  - reflexivity.
  - reflexivity.
  - reflexivity.
  - exists 20. split; [reflexivity | discriminate].
Defined.

Lemma stop_vox_needs_start_vox_witness :
  task (schedule [SessionRead; Poll 0 0.02]
          (fresh_gate (tape [loud_frame; loud_frame]))).1.2 = None ∧
  stop_vox (schedule [SessionRead; Poll 0 0.02]
              (fresh_gate (tape [loud_frame; loud_frame]))).1.2 =
    (Raise (AttributeError "'NoneType' object has no attribute 'cancel'"),
     (schedule [SessionRead; Poll 0 0.02]
        (fresh_gate (tape [loud_frame; loud_frame]))).1.2, []).
Proof.
  apply (stop_vox_needs_start_vox (tape [loud_frame; loud_frame])
           (fresh_gate (tape [loud_frame; loud_frame]))
           [SessionRead; Poll 0 0.02%Q]).
  reflexivity.
Defined.

Lemma on_vox_quiet_witness :
  on_vox [(0, 0.02); (0.04, 0.06)]%Q
    (waiting (tape [quiet_frame; quiet_frame; loud_frame]) 0) =
  (Ok (map (λ t, sleep_delay t.1 t.2) [(0, 0.02); (0.04, 0.06)]%Q),
   set_source (tape [loud_frame])
     (waiting (tape [quiet_frame; quiet_frame; loud_frame]) 0),
   []).
Proof.
  apply (on_vox_quiet [(0, 0.02); (0.04, 0.06)]%Q [quiet_frame; quiet_frame]
           (waiting (tape [quiet_frame; quiet_frame; loud_frame]) 0)
           (tape [loud_frame])).
  - reflexivity.
  - repeat (eapply delivers_cons; [reflexivity|]). apply delivers_nil.
  - repeat (constructor; [exists 5; split; reflexivity|]). constructor.
  - reflexivity.
Defined.


Lemma SoundDeviceSource_read_carries_signal_witness :
  frombuffer (SoundDeviceSource_read burst_device).1 !! (2 * 3)%nat =
  Some (wrap16 (signal (stream burst_device)
                  (position (stream burst_device) + N.of_nat 3)%N)).
Proof.
  apply (SoundDeviceSource_read_carries_signal burst_device 3). lia.
Defined.


Lemma search_guilds_last_guild_wins_witness :
  search_guilds "General" None ([home] ++ work :: []) None = Some hall.
Proof.
  apply (search_guilds_last_guild_wins "General" None [home] [] work hall).
  - reflexivity.
  - reflexivity.
  - intros g' Hin. by apply elem_of_nil in Hin.
Defined.

Lemma on_ready_by_name_witness :
  ∃ self,
    AudioPatchClient_init ascii_int silent_capture "General" (Some "Home")
      (DeviceName "1") = Ok self ∧
    (on_ready "audio_patch.py" server self).2 =
      [Stdout "Logged on as patch#0001";
       Stdout "Connected to voice channel General"].
Proof.
  eexists. split; [reflexivity|].
  rewrite (proj1 (on_ready_by_name ascii_int silent_capture "audio_patch.py"
                    "General" (Some "Home") (DeviceName "1") server _
                    eq_refl eq_refl)).
  reflexivity.
Defined.

Lemma on_ready_by_id_witness :
  ∃ self,
    AudioPatchClient_init ascii_int silent_capture "42" None
      (DeviceIndex 0) = Ok self ∧
    on_ready "audio_patch.py" server self =
      (Fail (AttributeError "'NoneType' object has no attribute 'connect'"),
       [Stdout "Logged on as patch#0001"]).
Proof.
  eexists. split; [reflexivity|].
  rewrite (on_ready_by_id ascii_int silent_capture "audio_patch.py"
             "42" None (DeviceIndex 0) 42 server _ eq_refl eq_refl).
  reflexivity.
Defined.

Lemma main_lists_input_devices_witness :
  main ascii_int silent_capture "audio_patch.py" list_only sound_cards =
  (Exit 0,
   [Stdout "Input devices:"; Stdout "  0: Microphone"; Stdout "  2: Line In";
    Stdout ""]).
Proof.
  rewrite (proj1 (main_lists_input_devices ascii_int silent_capture
                    "audio_patch.py" list_only sound_cards eq_refl)).
  reflexivity.
Defined.

(** What the listing of the example looks like. *)
Example main_lists_sound_cards :
  (main ascii_int silent_capture "audio_patch.py" list_only sound_cards).2 =
  [Stdout "Input devices:"; Stdout "  0: Microphone"; Stdout "  2: Line In";
   Stdout ""].
Proof. vm_compute. reflexivity. Qed.
